(** * raivault-server: the request router and its work cache

    A shallow embedding of [src/index.js] as it is shipped: the cache
    set-up, the cache functions [getCache]/[putCache] over the in-process
    [workCache] array, the fetch-and-store routine [getRecommendedReps]
    and the two route handlers [GET /api/recommended-representatives] and
    [POST /api/node-api], followed by the properties of the router and of
    the cache.

    Modelling conventions.
    - JavaScript values are the JSON values plus [undefined].  Numbers are
      integers ([Z]); fractional numbers are outside the model.  The text
      of a number is the built-in's and is taken as given.
    - A string is a [string]; its [length] counts the characters of the
      Rocq string, which stand for the UTF-16 code units of JavaScript.
    - Lines 13-15 of the source are comments: [redisCacheUrl],
      [redisCacheTime] and [memoryCacheLength] are declared nowhere, and
      reading one of them throws a [ReferenceError].
    - A handler is a computation in a small monad over the state of the
      process: the cache, the responses written to [res] and a log of the
      calls made to the cache, to the [request] library and to the
      [timestamps] module.
    - A promise is run at the point where it is created; interleavings of
      concurrent requests are outside the model. *)

From stdpp Require Import strings list pretty.

Set Warnings "-register-all".

Open Scope string_scope.
Open Scope Z_scope.
Open Scope list_scope.

(** ** JavaScript values *)

Module JS.

Inductive value : Type :=
| VUndefined
| VNull
| VBool (b : bool)
| VNum (n : Z)
| VStr (s : string)
| VArr (elems : list value)
| VObj (fields : list (string * value)).

(** [ToBoolean]: what [if (v)], [!v] and [v && w] test. *)
Definition truthy (v : value) : bool :=
  match v with
  | VUndefined | VNull => false
  | VBool b => b
  | VNum n => negb (n =? 0)
  | VStr s => negb (String.eqb s "")
  | VArr _ | VObj _ => true
  end.

(** [a === b].  Primitives compare by value.  Arrays and objects compare
    by identity: the operands compared in [index.js] are parsed from
    different messages, hence never the same object. *)
Definition strict_eq (a b : value) : bool :=
  match a, b with
  | VUndefined, VUndefined => true
  | VNull, VNull => true
  | VBool x, VBool y => Bool.eqb x y
  | VNum x, VNum y => x =? y
  | VStr x, VStr y => String.eqb x y
  | _, _ => false
  end.

(** The own property [name] of a parsed object, [undefined] when absent. *)
Fixpoint own_property (name : string) (fields : list (string * value)) : value :=
  match fields with
  | [] => VUndefined
  | (k, v) :: rest => if String.eqb name k then v else own_property name rest
  end.

Definition has_own_property (name : string) (fields : list (string * value)) : bool :=
  existsb (fun kv => String.eqb name (fst kv)) fields.

(** [v.name] for the property names read in [index.js] ([action], [hash],
    [hashes], [work], [representatives], [length]), none of which is
    inherited from a prototype except [length] of strings and arrays.
    Every read of the source on a possibly [null] or [undefined] value is
    guarded by a truthiness test, so no read throws. *)
Definition prop (v : value) (name : string) : value :=
  match v with
  | VObj fields => own_property name fields
  | VStr s => if String.eqb name "length" then VNum (Z.of_nat (String.length s)) else VUndefined
  | VArr elems => if String.eqb name "length" then VNum (Z.of_nat (length elems)) else VUndefined
  | _ => VUndefined
  end.

(** [ToString], as a template literal applies it; [None] is the
    [TypeError] thrown for an object that cannot be converted to a
    primitive.  The text of a number is what the built-in
    [Number.prototype.toString] yields (plain decimal for a small
    integer, rounded digits and exponent notation for a large one): it is
    the argument [number_text].  A parsed object has no callable own
    property, so the conversion finds [Object.prototype.toString] unless
    the object carries an own property named [toString], in which case
    neither [toString] nor [valueOf] yields a primitive.  An array is
    joined with commas, [null] and [undefined] elements rendered empty. *)
Fixpoint to_string (number_text : Z -> string) (v : value) : option string :=
  match v with
  | VUndefined => Some "undefined"
  | VNull => Some "null"
  | VBool true => Some "true"
  | VBool false => Some "false"
  | VNum n => Some (number_text n)
  | VStr s => Some s
  | VArr elems =>
      (fix join (l : list value) : option string :=
         match l with
         | [] => Some ""
         | x :: rest =>
             let element :=
               match x with
               | VUndefined | VNull => Some ""
               | _ => to_string number_text x
               end in
             match element, rest with
             | None, _ => None
             | Some s, [] => Some s
             | Some s, _ :: _ =>
                 match join rest with
                 | Some r => Some (s +:+ "," +:+ r)
                 | None => None
                 end
             end
         end) elems
  | VObj fields =>
      if has_own_property "toString" fields then None else Some "[object Object]"
  end.

End JS.

Import JS.

(** ** The world outside [index.js] *)

(** What an evaluation or a promise settles to: the value it yields, or
    the text [err.toString()] of the error it throws or rejects with. *)
Inductive settled (A : Type) : Type :=
| Resolved (a : A)
| Rejected (err : string).
Arguments Resolved {A} a.
Arguments Rejected {A} err.

(** The options object passed to [request]; [json: true] is set at every
    call of the source and left implicit. *)
Record options := Options { method : string; uri : value; body : value }.

(** The collaborators that [index.js] calls and does not define: the
    [request] library, the repository's [timestamps] module (its source
    is not part of this development), the built-in [JSON] object and the
    built-in conversion of a number to its text. *)
Record externals := Externals {
  request : options -> settled value;
  mapAccountHistory : value -> settled value;
  mapBlocksInfo : value -> value -> settled value;
  mapPending : value -> settled value;
  JSON_parse : value -> settled value;
  JSON_stringify : value -> value;
  Number_toString : Z -> string
}.

(** ** Configuration (lines 6-15) *)

(** The constants that the source declares. *)
Record config := Config {
  nanoNodeUrl : string;
  nanoWorkNodeUrl : string;
  useDPoW : bool;
  useRedisCache : bool;
  DPOW_URL : value;
  DPOW_USER : value;
  DPOW_KEY : value
}.

(** Reading an identifier that no line declares. *)
Definition undeclared {A} (name : string) : settled A :=
  Rejected ("ReferenceError: " +:+ name +:+ " is not defined").

(** Line 13 is a comment. *)
Definition redisCacheUrl : settled string := undeclared "redisCacheUrl".

(** Line 15 is a comment. *)
Definition memoryCacheLength : settled nat := undeclared "memoryCacheLength".

(** ** The cache (lines 22 and 157-180) *)

(** An element [{ hash, work }] of the [workCache] array. *)
Record entry := Entry { hash : value; work : value }.

(** The cache state of the process: the [workCache] array. *)
Record store := Store { workCache : list entry }.

(** The set-up of lines 157-180, run once when the module is loaded:
    whether it completes.  With [useRedisCache] its first statement
    creates the redis client from [{ host: redisCacheUrl }]; reading
    [redisCacheUrl] throws, the module fails to load and the process ends
    before it handles a request, so the redis functions of lines 166-169
    are never installed.  Otherwise the functions of lines 171-179 are
    installed over the empty [workCache] of line 22. *)
Definition cache_setup (cfg : config) : settled unit :=
  if useRedisCache cfg then
    match redisCacheUrl with
    | Resolved host => Resolved tt
    | Rejected err => Rejected err
    end
  else Resolved tt.

(** The optional third argument of [putCache] is a number of seconds.
    [if (time)] tests its truthiness: a TTL counts as given when the
    argument is a number other than zero. *)
Definition time_given (time : option Z) : bool :=
  match time with
  | Some t => negb (t =? 0)
  | None => false
  end.

(** [getCache] (lines 171-174) *)
Definition getCache_memory (cache : list entry) (h : value) : value :=
  match find (fun w => strict_eq (hash w) h) cache with
  | Some existingHash => work existingHash
  | None => VNull
  end.

(** [workCache.shift()] *)
Definition shift (cache : list entry) : list entry := tail cache.

(** [putCache] (lines 175-179): how the call completes and the array it
    leaves.  Without a TTL the entry is pushed; the test of line 178
    then reads [memoryCacheLength]. *)
Definition putCache_memory (cache : list entry) (h w : value) (time : option Z)
  : settled unit * list entry :=
  if time_given time then (Resolved tt, cache)
  else
    let pushed := cache ++ [Entry h w] in
    match memoryCacheLength with
    | Resolved cap =>
        (Resolved tt, if (cap <=? length pushed)%nat then shift pushed else pushed)
    | Rejected err => (Rejected err, pushed)
    end.

(** [getCache] and [putCache] on the state of the process. *)
Definition getCache_store (st : store) (h : value) : value :=
  getCache_memory (workCache st) h.

Definition putCache_store (st : store) (h w : value) (time : option Z)
  : settled unit * store :=
  let r := putCache_memory (workCache st) h w time in
  (r.1, Store r.2).

(** ** The handler monad *)

(** An HTTP response written through [res.status(..).json(..)]. *)
Record response := Response { status : Z; payload : value }.

(** The calls a handler makes to the cache, to [request] and to the
    [timestamps] module, in the order it makes them. *)
Inductive event : Type :=
| GetCache (key : value)
| PutCache (key val : value) (time : option Z)
| Request (o : options)
| MapAccountHistory (res : value)
| MapBlocksInfo (hashes res : value)
| MapPending (res : value).

(** The state a handler runs in: the cache, the responses written to
    [res] so far (oldest first) and the calls made so far. *)
Record process := Process {
  cache : store;
  sent : list response;
  log : list event
}.

(** How a statement completes: normally with a value, by a [return] out
    of the handler, or by throwing (a rejected [await] throws too). *)
Inductive completion (A : Type) : Type :=
| Normal (a : A)
| Return
| Throw (err : string).
Arguments Normal {A} a.
Arguments Return {A}.
Arguments Throw {A} err.

Definition M (A : Type) : Type := process -> completion A * process.

#[global] Instance M_ret : MRet M := fun A a p => (Normal a, p).

#[global] Instance M_bind : MBind M := fun A B k m p =>
  match m p with
  | (Normal a, p') => k a p'
  | (Return, p') => (Return, p')
  | (Throw err, p') => (Throw err, p')
  end.

Definition return_ {A} : M A := fun p => (Return, p).

Definition throw {A} (err : string) : M A := fun p => (Throw err, p).

Definition await {A} (x : settled A) : M A :=
  match x with
  | Resolved a => mret a
  | Rejected err => throw err
  end.

(** The three updates of the process state. *)
Definition logged (p : process) (e : event) : process :=
  Process (cache p) (sent p) (log p ++ [e]).

Definition responded (p : process) (r : response) : process :=
  Process (cache p) (sent p ++ [r]) (log p).

Definition stored (p : process) (st : store) : process :=
  Process st (sent p) (log p).

Definition emit (e : event) : M unit :=
  fun p => (Normal tt, logged p e).

(** [if (b) { m }] *)
Definition when (b : bool) (m : M unit) : M unit :=
  if b then m else mret tt.

(** [promise.catch(handler)], for a promise chain [m]: the handler runs
    when the chain rejects, on the state the chain left. *)
Definition catch (m : M unit) (handler : string -> M unit) : M unit :=
  fun p =>
    match m p with
    | (Throw err, p') => handler err p'
    | (_, p') => (Normal tt, p')
    end.

(** [res.status(code).json(v)]; [res.json(v)] is [res_json 200 v]. *)
Definition res_json (code : Z) (v : value) : M unit :=
  fun p => (Normal tt, responded p (Response code v)).

(** The route handlers run in a process whose module has loaded, hence
    with [useRedisCache] unset: their [getCache] and [putCache] are the
    functions of lines 171-179, and the conditionals
    [useRedisCache ? await getCache(..) : getCache(..)] of lines 82 and
    91 are the plain call. *)
Definition read_cache (h : value) : M value :=
  fun p => (Normal (getCache_store (cache p) h), p).

Definition write_cache (h w : value) (time : option Z) : M unit :=
  fun p =>
    let r := putCache_store (cache p) h w time in
    (match r.1 with
     | Resolved _ => Normal tt
     | Rejected err => Throw err
     end, stored p r.2).

Definition getCache (h : value) : M value :=
  emit (GetCache h);; read_cache h.

Definition putCache (h w : value) (time : option Z) : M unit :=
  emit (PutCache h w time);; write_cache h w time.

Section Server.
Context (cfg : config) (ext : externals).

(** [request(o)], awaited or chained with [.then]. *)
Definition request_promise (o : options) : M value :=
  emit (Request o);; await (request ext o).

Definition timestamps_mapAccountHistory (res : value) : M value :=
  emit (MapAccountHistory res);; await (mapAccountHistory ext res).

Definition timestamps_mapBlocksInfo (hashes res : value) : M value :=
  emit (MapBlocksInfo hashes res);; await (mapBlocksInfo ext hashes res).

Definition timestamps_mapPending (res : value) : M value :=
  emit (MapPending res);; await (mapPending ext res).

(** *** [getRecommendedReps] (lines 182-192) *)

Definition getRecommendedReps : M value :=
  res ← request_promise
          (Options "get" (VStr "https://mynano.ninja/api/accounts/verified") VUndefined);
  putCache (VStr "recommended-reps") (JSON_stringify ext res) (Some (45 * 60));;
  mret res.

(** *** [GET /api/recommended-representatives] (lines 34-41)

    The value the handler returns is discarded by the web framework; a
    response reaches the client only through [res]. *)
Definition recommended_representatives : M unit :=
  reps ← getCache (VStr "recommended-reps");
  if truthy reps then
    parsed ← await (JSON_parse ext reps);
    res_json 200 parsed;;
    return_
  else
    _ ← getRecommendedReps;
    return_.

(** *** [POST /api/node-api] (lines 44-150) *)

Definition allowedActions : list string :=
  [ "account_history"; "account_info"; "accounts_frontiers";
    "accounts_balances"; "accounts_pending"; "block"; "blocks";
    "block_count"; "blocks_info"; "delegators_count"; "pending";
    "process"; "representatives_online"; "validate_account_number";
    "work_generate" ].

(** [allowedActions.indexOf(v) === -1]; [indexOf] compares with [===]. *)
Definition not_listed (v : value) : bool :=
  negb (existsb (fun a => strict_eq (VStr a) v) allowedActions).

(** An incoming request: its parsed JSON body (the body parser yields an
    object or an array) and the [node] parameter of its query string,
    [None] when the query string has none.  A query string that repeats
    or nests [node] makes it an array or an object; such requests are
    outside the model. *)
Record incoming := Incoming { req_body : value; req_query_node : option string }.

(** [req.query && req.query.node && req.query.node.length > 4] *)
Definition valid_override (req : incoming) : bool :=
  match req_query_node req with
  | Some node => truthy (VStr node) && (4 <? Z.of_nat (String.length node))
  | None => false
  end.

Definition repCacheKey : value := VStr "online-representatives".

Definition error_object (message : string) : value :=
  VObj [("error", VStr message)].

(** Lines 62-64: the allowlist check.  The template literal converts the
    action to a string before [res.status(500).json] is called. *)
Definition check_allowed (action : value) : M unit :=
  when (negb (truthy action) || not_listed action)
    (match to_string (Number_toString ext) action with
     | Some name => res_json 500 (error_object ("Action " +:+ name +:+ " not allowed"))
     | None => throw "TypeError: Cannot convert object to primitive value"
     end;;
     return_).

(** Lines 78-87, "Cache work requests": yields [workRequest]. *)
Definition cache_work_requests (action hash : value) (nodeOverride : bool) : M bool :=
  if strict_eq action (VStr "work_generate") && negb nodeOverride then
    when (negb (truthy hash))
      (res_json 500 (error_object "Requires valid hash to perform work");;
       return_);;
    cachedWork ← getCache hash;
    when (truthy cachedWork && truthy (prop cachedWork "length"))
      (res_json 200 (VObj [("work", cachedWork)]);;
       return_);;
    mret true
  else mret false.

(** Lines 89-96, "Cache the online representatives request": yields
    [representativeRequest]. *)
Definition cache_online_representatives (action : value) (nodeOverride : bool) : M bool :=
  if strict_eq action (VStr "representatives_online") && negb nodeOverride then
    cachedValue ← getCache repCacheKey;
    when (truthy cachedValue && truthy (prop cachedValue "length"))
      (parsed ← await (JSON_parse ext cachedValue);
       res_json 200 parsed;;
       return_);;
    mret true
  else mret false.

(** The options of the call to the proof-of-work delegate (lines 105-115). *)
Definition dpow_options (hash : value) : options :=
  Options "post" (DPOW_URL cfg)
    (VObj [("user", DPOW_USER cfg); ("api_key", DPOW_KEY cfg);
           ("hash", hash); ("timeout", VNum 10)]).

(** Lines 105-122: the promise chain of the DPoW branch. *)
Definition use_dpow (hash : value) : M unit :=
  catch
    (dpowRes ← request_promise (dpow_options hash);
     when (truthy dpowRes && truthy (prop dpowRes "work"))
       (putCache hash (prop dpowRes "work") None);;
     res_json 200 dpowRes)
    (fun err => res_json 500 (VStr err)).

(** Lines 128-135: the cache write-back. *)
Definition cache_write_back (hash : value)
    (workRequest representativeRequest nodeOverride : bool) (proxyRes : value) : M unit :=
  when (truthy proxyRes && negb nodeOverride)
    (when (workRequest && truthy (prop proxyRes "work"))
       (putCache hash (prop proxyRes "work") None);;
     when (representativeRequest && truthy (prop proxyRes "representatives"))
       (putCache repCacheKey (JSON_stringify ext proxyRes) (Some (5 * 60)))).

(** Lines 137-146, "Add timestamps to certain requests". *)
Definition add_timestamps (req : incoming) (proxyRes : value) : M value :=
  let action := prop (req_body req) "action" in
  proxyRes ←
    (if strict_eq action (VStr "account_history")
     then timestamps_mapAccountHistory proxyRes else mret proxyRes);
  proxyRes ←
    (if strict_eq action (VStr "blocks_info")
     then timestamps_mapBlocksInfo (prop (req_body req) "hashes") proxyRes
     else mret proxyRes);
  if strict_eq action (VStr "pending")
  then timestamps_mapPending proxyRes else mret proxyRes.

(** Lines 126-149: the promise chain of the call to the Nano node. *)
Definition send_to_node (req : incoming) (nodeUrl : value)
    (workRequest representativeRequest nodeOverride : bool) : M unit :=
  catch
    (proxyRes ← request_promise (Options "post" nodeUrl (req_body req));
     cache_write_back (prop (req_body req) "hash")
       workRequest representativeRequest nodeOverride proxyRes;;
     proxyRes ← add_timestamps req proxyRes;
     res_json 200 proxyRes)
    (fun err => res_json 500 (VStr err)).

Definition node_api (req : incoming) : M unit :=
  let action := prop (req_body req) "action" in
  let hash := prop (req_body req) "hash" in
  check_allowed action;;
  (* Check for a node override being used *)
  let nodeOverride := valid_override req in
  let nodeUrl :=
    match req_query_node req with
    | Some node => if nodeOverride then VStr node else VStr (nanoNodeUrl cfg)
    | None => VStr (nanoNodeUrl cfg)
    end in
  workRequest ← cache_work_requests action hash nodeOverride;
  representativeRequest ← cache_online_representatives action nodeOverride;
  (* Determine if this should go to the work node instead *)
  let nodeUrl :=
    if (workRequest || representativeRequest) && negb nodeOverride
    then VStr (nanoWorkNodeUrl cfg) else nodeUrl in
  (* Determine if we use DPoW instead of proxying to the nano node *)
  when (workRequest && useDPoW cfg)
    (use_dpow hash;;
     return_);;
  (* Send the request to the Nano node and return the response *)
  send_to_node req nodeUrl workRequest representativeRequest nodeOverride.

(** Running a route handler on a request: the handler starts with
    nothing sent and nothing logged. *)
Definition serve (handler : M unit) (st : store) : completion unit * process :=
  handler (Process st [] []).

End Server.

(** ** Vocabulary of the statements *)

(** A run of insertions without TTL into the in-memory cache, each a
    pair of a hash and a work value, oldest first: the array it leaves. *)
Definition inserts (ops : list (value * value)) (c : list entry) : list entry :=
  fold_left (fun c op => (putCache_memory c op.1 op.2 None).2) ops c.

(** The entries a run of insertions pushes, oldest first. *)
Definition entries (ops : list (value * value)) : list entry :=
  map (fun op => Entry op.1 op.2) ops.

(** The calls to [getCache] and [putCache] among the logged calls. *)
Definition is_cache_call (e : event) : bool :=
  match e with
  | GetCache _ | PutCache _ _ _ => true
  | _ => false
  end.

(** The outbound HTTP calls among the logged calls. *)
Definition requests (l : list event) : list options :=
  flat_map (fun e => match e with Request o => [o] | _ => [] end) l.

(** The response enricher of the specification, as a function of the
    action of the request: what the timestamp stage makes of an upstream
    response, and the calls to the [timestamps] module it takes. *)
Definition enriched (ext : externals) (req : incoming) (res : value) : settled value :=
  let action := prop (req_body req) "action" in
  if strict_eq action (VStr "account_history") then mapAccountHistory ext res
  else if strict_eq action (VStr "blocks_info")
       then mapBlocksInfo ext (prop (req_body req) "hashes") res
  else if strict_eq action (VStr "pending") then mapPending ext res
  else Resolved res.

Definition timestamps_calls (req : incoming) (res : value) : list event :=
  let action := prop (req_body req) "action" in
  if strict_eq action (VStr "account_history") then [MapAccountHistory res]
  else if strict_eq action (VStr "blocks_info")
       then [MapBlocksInfo (prop (req_body req) "hashes") res]
  else if strict_eq action (VStr "pending") then [MapPending res]
  else [].

(** The response that relays a settled result to the client. *)
Definition relayed (r : settled value) : response :=
  match r with
  | Resolved v => Response 200 v
  | Rejected err => Response 500 (VStr err)
  end.

(** Where a work request that missed the cache is resolved: the
    proof-of-work delegate when it is enabled, else the work node. *)
Definition work_call (cfg : config) (req : incoming) : options :=
  if useDPoW cfg then dpow_options cfg (prop (req_body req) "hash")
  else Options "post" (VStr (nanoWorkNodeUrl cfg)) (req_body req).

(** The response to a work request that missed the cache, given what
    the call that resolves it settles to: an answer that carries a work
    value is handed to [putCache], which throws after the push, and the
    [catch] of the chain reports that error; any other answer, and a
    failure of the call, is relayed. *)
Definition work_reply (r : settled value) : response :=
  match r with
  | Resolved res =>
      if truthy res && truthy (prop res "work")
      then Response 500 (VStr "ReferenceError: memoryCacheLength is not defined")
      else Response 200 res
  | Rejected err => Response 500 (VStr err)
  end.

(** The same handler run [n] times in a row, the store handed from one
    run to the next: the state each run ends in. *)
Fixpoint serve_repeatedly (handler : M unit) (n : nat) (st : store) : list process :=
  match n with
  | O => []
  | S later =>
      let p := (serve handler st).2 in
      p :: serve_repeatedly handler later (cache p)
  end.

(** Every entry of [workCache] holds a truthy work value. *)
Definition truthy_works (st : store) : Prop :=
  Forall (fun e => truthy (work e) = true) (workCache st).

(** The computation [m] keeps the property [I] of the cache. *)
Definition keeps {A} (I : store -> Prop) (m : M A) : Prop :=
  forall p, I (cache p) -> I (cache (m p).2).

(** The stores a server with configuration [cfg] can be in: the module
    loads and leaves an empty [workCache]; the handlers and the refresh
    timer then run, whatever the outside world answers. *)
Inductive reachable (cfg : config) : store -> Prop :=
| reachable_start :
    cache_setup cfg = Resolved tt ->
    reachable cfg (Store [])
| reachable_node_api ext req st :
    reachable cfg st ->
    reachable cfg (cache (serve (node_api cfg ext req) st).2)
| reachable_recommended_representatives ext st :
    reachable cfg st ->
    reachable cfg (cache (serve (recommended_representatives ext) st).2)
| reachable_pollRecommended ext st :
    reachable cfg st ->
    reachable cfg (cache (getRecommendedReps ext (Process st [] [])).2).

(** The one outbound call a request to [/api/node-api] can make: to the
    override when it carries a valid one; else, by its action, to the
    delegate or the work node ([work_generate]), to the work node
    ([representatives_online]) or to the Nano node. *)
Definition destination (cfg : config) (req : incoming) : options :=
  let action := prop (req_body req) "action" in
  let configured :=
    if strict_eq action (VStr "work_generate") then work_call cfg req
    else if strict_eq action (VStr "representatives_online")
         then Options "post" (VStr (nanoWorkNodeUrl cfg)) (req_body req)
    else Options "post" (VStr (nanoNodeUrl cfg)) (req_body req) in
  match req_query_node req with
  | Some node =>
      if valid_override req then Options "post" (VStr node) (req_body req)
      else configured
  | None => configured
  end.

(** The errors that the router leaves uncaught: the conversion of the
    action to a string, and a cached list of representatives that does
    not parse. *)
Definition uncaught (ext : externals) (req : incoming) (st : store) (err : string)
  : Prop :=
  to_string (Number_toString ext) (prop (req_body req) "action") = None \/
  JSON_parse ext (getCache_store st repCacheKey) = Rejected err.

(** A guard of the handler: a computation that makes no outbound call
    and leaves the cache as it is, that writes a response exactly when it
    returns out of the handler, that yields [expected] when it completes
    normally and that throws only for a [reason]. *)
Definition guard {A} (expected : A) (reason : store -> string -> Prop) (m : M A)
  : Prop :=
  forall p, exists c p',
    m p = (c, p') /\
    cache p' = cache p /\
    requests (log p') = requests (log p) /\
    match c with
    | Normal a => a = expected /\ sent p' = sent p
    | Return => exists r, sent p' = sent p ++ [r]
    | Throw err => reason (cache p) err /\ sent p' = sent p
    end.

(** ** An example deployment

    A stub node that answers every call with [{work: "1234"}], a stub
    [timestamps] module that tags what it is given, a JSON codec that
    leaves values as they are and numbers printed in plain decimal. *)
Definition stub_response : value := VObj [("work", VStr "1234")].

Definition tagged (res : value) : value := VObj [("timestamped", res)].

Definition stub_string (v : value) : string :=
  match v with
  | VStr s => s
  | _ => "json"
  end.

Definition stub_externals : externals :=
  Externals
    (fun _ => Resolved stub_response)
    (fun res => Resolved (tagged res))
    (fun _ res => Resolved (tagged res))
    (fun res => Resolved (tagged res))
    (fun v => Resolved v)
    (fun v => VStr (stub_string v))
    pretty.

Definition failing_externals : externals :=
  Externals
    (fun _ => Rejected "Error: connect ECONNREFUSED")
    (mapAccountHistory stub_externals)
    (mapBlocksInfo stub_externals)
    (mapPending stub_externals)
    (JSON_parse stub_externals)
    (JSON_stringify stub_externals)
    (Number_toString stub_externals).

(** A node that answers every call with [res], with a JSON codec that
    parses every text to [res]. *)
Definition answering (res : value) : externals :=
  Externals
    (fun _ => Resolved res)
    (mapAccountHistory stub_externals)
    (mapBlocksInfo stub_externals)
    (mapPending stub_externals)
    (fun _ => Resolved res)
    (JSON_stringify stub_externals)
    (Number_toString stub_externals).

Definition memory_config : config :=
  Config "http://[::1]:7002" "http://[::1]:7002" false false
    VUndefined VUndefined VUndefined.

Definition redis_config : config :=
  Config "http://[::1]:7002" "http://[::1]:7002" false true
    VUndefined VUndefined VUndefined.

Definition dpow_config : config :=
  Config "http://[::1]:7002" "http://[::1]:7002" true false
    (VStr "https://dpow.example/service") (VStr "user") (VStr "key").

Definition empty_store : store := Store [].

Definition work_request : incoming :=
  Incoming (VObj [("action", VStr "work_generate"); ("hash", VStr "ABCD")]) None.

Definition representatives_response : value :=
  VObj [("representatives", VObj [("nano_1stub", VStr "1000")])].

Definition representatives_request : incoming :=
  Incoming (VObj [("action", VStr "representatives_online")]) None.

Definition refusal : value := VObj [("error", VStr "Bad block hash")].

(** * Properties *)

(** ** JavaScript values *)

Lemma truthy_nonempty s :
  truthy (VStr s) && truthy (prop (VStr s) "length") = negb (String.eqb s "").
Proof. destruct s; reflexivity. Qed.

(** Every listed action is a non-empty string, so the test [!action] of
    line 62 adds nothing to the [indexOf] test. *)
Lemma listed_action_truthy action : not_listed action = false -> truthy action = true.
Proof.
  unfold not_listed. rewrite negb_false_iff, existsb_exists.
  intros (a & Hin & Heq). destruct action; try discriminate Heq.
  cbn in Heq. apply String.eqb_eq in Heq. subst.
  cbn in Hin. intuition (subst; reflexivity).
Qed.

(** ** The cache set-up *)

(** With [useRedisCache] the module does not load. *)
Lemma cache_setup_redis cfg :
  useRedisCache cfg = true ->
  cache_setup cfg = Rejected "ReferenceError: redisCacheUrl is not defined".
Proof. intros Hb. unfold cache_setup. rewrite Hb. reflexivity. Qed.

Lemma cache_setup_memory cfg :
  cache_setup cfg = Resolved tt -> useRedisCache cfg = false.
Proof.
  unfold cache_setup. destruct (useRedisCache cfg); [discriminate | reflexivity].
Qed.

(** ** The in-memory cache *)

Section Memory.
Implicit Types (c : list entry) (h w : value).

(** A call without TTL pushes the entry and throws at the test of line
    178; the eviction is never reached. *)
Lemma putCache_memory_no_time c h w :
  putCache_memory c h w None =
    (Rejected "ReferenceError: memoryCacheLength is not defined", c ++ [Entry h w]).
Proof. reflexivity. Qed.

Lemma inserts_entries ops : forall c, inserts ops c = c ++ entries ops.
Proof.
  induction ops as [|[h w] ops IH]; intros c; cbn.
  - symmetry. apply app_nil_r.
  - change (fold_left _ ops ?x) with (inserts ops x).
    rewrite IH, <- app_assoc. reflexivity.
Qed.

(** C5. The in-memory cache is not bounded. Whatever insertions without
    TTL are made, each call pushes its entry and then throws at the test
    of line 178, which reads the undeclared [memoryCacheLength]: the
    eviction of that line is never reached, no entry is ever removed, and
    the array holds every entry inserted, in the order of insertion. Its
    length exceeds every capacity. *)
Theorem workCache_never_pruned :
  (forall c h w,
     putCache_memory c h w None =
       (Rejected "ReferenceError: memoryCacheLength is not defined",
        c ++ [Entry h w])) /\
  (forall ops, inserts ops [] = entries ops) /\
  (forall cap : nat, exists ops, (cap < length (inserts ops []))%nat).
Proof.
  split; [|split].
  - intros c h w. apply putCache_memory_no_time.
  - intros ops. apply inserts_entries.
  - intros cap. exists (repeat (VStr "ABCD", VStr "1234") (S cap)).
    rewrite inserts_entries. cbn [app]. unfold entries.
    rewrite length_map, repeat_length. lia.
Qed.

Lemma find_app_none {A} (f : A -> bool) (l1 l2 : list A) :
  find f l1 = None -> find f (l1 ++ l2) = find f l2.
Proof.
  induction l1 as [|x l1 IH]; [reflexivity|].
  cbn. destruct (f x); [discriminate | exact IH].
Qed.

Lemma find_app_some {A} (f : A -> bool) (l1 l2 : list A) x :
  find f l1 = Some x -> find f (l1 ++ l2) = Some x.
Proof.
  induction l1 as [|y l1 IH]; [discriminate|].
  cbn. destruct (f y); [tauto | exact IH].
Qed.

Lemma getCache_memory_app_found c c' h older :
  find (fun e => strict_eq (hash e) h) c = Some older ->
  getCache_memory (c ++ c') h = work older.
Proof.
  intros Hf. unfold getCache_memory.
  rewrite (find_app_some _ _ _ _ Hf). reflexivity.
Qed.

Lemma getCache_memory_fresh c h w :
  strict_eq h h = true ->
  find (fun e => strict_eq (hash e) h) c = None ->
  getCache_memory (putCache_memory c h w None).2 h = w.
Proof.
  intros Hh Hfresh. rewrite putCache_memory_no_time. cbn [snd].
  unfold getCache_memory. rewrite find_app_none by exact Hfresh.
  cbn. rewrite Hh. reflexivity.
Qed.

(** C3, amended. In the in-memory backend a write without TTL appends an
    entry and leaves the earlier entries of the key in place, and a read
    returns the oldest entry stored for the key: after two successive
    writes for the same hash a read returns the first value. *)
Theorem write_then_read :
  (forall c h w older,
     find (fun e => strict_eq (hash e) h) c = Some older ->
     (putCache_memory c h w None).2 = c ++ [Entry h w] /\
     getCache_memory (putCache_memory c h w None).2 h = work older) /\
  (forall h w1 w2,
     strict_eq h h = true ->
     getCache_memory
       (putCache_memory (putCache_memory [] h w1 None).2 h w2 None).2 h = w1).
Proof.
  split.
  - intros c h w older Hf. rewrite putCache_memory_no_time. cbn [snd].
    split; [reflexivity|]. apply getCache_memory_app_found, Hf.
  - intros h w1 w2 Hh. rewrite !putCache_memory_no_time. cbn [snd app].
    unfold getCache_memory. cbn. rewrite Hh. reflexivity.
Qed.

(** C9, amended. A call of [putCache] on the in-memory backend whose TTL
    argument is a number other than zero leaves the cache as it is:
    nothing is stored, and no entry is added, removed or changed. *)
Theorem putCache_memory_with_time c h w t :
  t ≠ 0 ->
  putCache_memory c h w (Some t) = (Resolved tt, c) /\
  forall st, putCache_store st h w (Some t) = (Resolved tt, st).
Proof.
  intros Ht. assert (Hg : time_given (Some t) = true).
  { cbn. apply negb_true_iff, Z.eqb_neq, Ht. }
  split.
  - unfold putCache_memory. rewrite Hg. reflexivity.
  - intros st. unfold putCache_store, putCache_memory.
    rewrite Hg. destruct st; reflexivity.
Qed.

(** X2. A hash written for the first time is read back with the value
    written, provided the hash is a primitive value (an array or an
    object is identical to no key, so it is never found); the write
    changes what is read under no other key. *)
Theorem putCache_then_getCache c h w :
  strict_eq h h = true ->
  find (fun e => strict_eq (hash e) h) c = None ->
  getCache_memory (putCache_memory c h w None).2 h = w /\
  forall h', strict_eq h h' = false ->
    getCache_memory (putCache_memory c h w None).2 h' = getCache_memory c h'.
Proof.
  intros Hh Hfresh.
  split; [apply getCache_memory_fresh; assumption|].
  intros h' Hne. rewrite putCache_memory_no_time. cbn [snd].
  unfold getCache_memory.
  destruct (find (fun e => strict_eq (hash e) h') c) as [e|] eqn:Hf.
  - rewrite (find_app_some _ _ _ _ Hf). reflexivity.
  - rewrite find_app_none by exact Hf. cbn. rewrite Hne. reflexivity.
Qed.

End Memory.

(** ** Running the monad *)

Section Run.
Context {A B : Type} (m : M A) (k : A -> M B) (p p' : process).

Lemma bind_normal a : m p = (Normal a, p') -> (m ≫= k) p = k a p'.
Proof. intros Hm. unfold mbind, M_bind. rewrite Hm. reflexivity. Qed.

Lemma bind_return : m p = (Return, p') -> (m ≫= k) p = (Return, p').
Proof. intros Hm. unfold mbind, M_bind. rewrite Hm. reflexivity. Qed.

Lemma bind_throw err : m p = (Throw err, p') -> (m ≫= k) p = (Throw err, p').
Proof. intros Hm. unfold mbind, M_bind. rewrite Hm. reflexivity. Qed.

End Run.

(** ** The logged calls *)

Lemma requests_app l1 l2 : requests (l1 ++ l2) = requests l1 ++ requests l2.
Proof. apply flat_map_app. Qed.

Lemma requests_request o l : requests (Request o :: l) = o :: requests l.
Proof. reflexivity. Qed.

Lemma timestamps_calls_quiet req res :
  requests (timestamps_calls req res) = [] /\
  Forall (fun e => is_cache_call e = false) (timestamps_calls req res).
Proof.
  unfold timestamps_calls. cbv zeta.
  repeat match goal with |- context [if ?b then _ else _] => destruct b end;
    split; try reflexivity; repeat constructor.
Qed.

Lemma enriched_other ext req res :
  strict_eq (prop (req_body req) "action") (VStr "account_history") = false ->
  strict_eq (prop (req_body req) "action") (VStr "blocks_info") = false ->
  strict_eq (prop (req_body req) "action") (VStr "pending") = false ->
  enriched ext req res = Resolved res /\ timestamps_calls req res = [].
Proof.
  intros H1 H2 H3. unfold enriched, timestamps_calls. rewrite H1, H2, H3.
  split; reflexivity.
Qed.

(** ** The stages of the router *)

Section Stages.
Context (cfg : config) (ext : externals).
Implicit Types (p : process) (action hash : value) (o : options).

Lemma check_allowed_pass action p :
  truthy action = true -> not_listed action = false ->
  check_allowed ext action p = (Normal tt, p).
Proof. intros Ht Hl. unfold check_allowed. rewrite Ht, Hl. reflexivity. Qed.

Lemma check_allowed_reject action name p :
  negb (truthy action) || not_listed action = true ->
  to_string (Number_toString ext) action = Some name ->
  check_allowed ext action p =
    (Return,
     responded p (Response 500 (error_object ("Action " +:+ name +:+ " not allowed")))).
Proof. intros Hr Hs. unfold check_allowed. rewrite Hr, Hs. reflexivity. Qed.

Lemma check_allowed_throw action p :
  negb (truthy action) || not_listed action = true ->
  to_string (Number_toString ext) action = None ->
  check_allowed ext action p =
    (Throw "TypeError: Cannot convert object to primitive value", p).
Proof. intros Hr Hs. unfold check_allowed. rewrite Hr, Hs. reflexivity. Qed.

Lemma getCache_run h p :
  getCache h p = (Normal (getCache_store (cache p) h), logged p (GetCache h)).
Proof. reflexivity. Qed.

(** [putCache] with a TTL returns at line 176. *)
Lemma putCache_run_time h w t p :
  t ≠ 0 ->
  putCache h w (Some t) p = (Normal tt, logged p (PutCache h w (Some t))).
Proof.
  intros Ht. unfold putCache, write_cache, emit, mbind, M_bind.
  destruct (putCache_memory_with_time (workCache (cache p)) h w t Ht) as [_ Hst].
  rewrite (Hst (cache (logged p (PutCache h w (Some t))))). reflexivity.
Qed.

(** [putCache] without TTL pushes the entry and throws. *)
Lemma putCache_run_no_time h w p :
  putCache h w None p =
    (Throw "ReferenceError: memoryCacheLength is not defined",
     stored (logged p (PutCache h w None))
       (Store (workCache (cache p) ++ [Entry h w]))).
Proof. reflexivity. Qed.

Lemma request_run o p :
  request_promise ext o p =
    match request ext o with
    | Resolved v => (Normal v, logged p (Request o))
    | Rejected err => (Throw err, logged p (Request o))
    end.
Proof.
  unfold request_promise, emit, mbind, M_bind.
  destruct (request ext o); reflexivity.
Qed.

Lemma cache_work_requests_other action hash nodeOverride p :
  strict_eq action (VStr "work_generate") && negb nodeOverride = false ->
  cache_work_requests action hash nodeOverride p = (Normal false, p).
Proof. intros H. unfold cache_work_requests. rewrite H. reflexivity. Qed.

Lemma cache_work_requests_lookup hash p :
  truthy hash = true ->
  cache_work_requests (VStr "work_generate") hash false p =
    let cachedWork := getCache_store (cache p) hash in
    if truthy cachedWork && truthy (prop cachedWork "length")
    then (Return, responded (logged p (GetCache hash))
                    (Response 200 (VObj [("work", cachedWork)])))
    else (Normal true, logged p (GetCache hash)).
Proof.
  intros Hh. unfold cache_work_requests. cbn. rewrite Hh. cbn.
  unfold mbind at 1, M_bind at 1. cbn.
  unfold mbind at 1, M_bind at 1. rewrite getCache_run.
  destruct (truthy (getCache_store (cache p) hash)
            && truthy (prop (getCache_store (cache p) hash) "length"));
    reflexivity.
Qed.

Lemma cache_online_representatives_other action nodeOverride p :
  strict_eq action (VStr "representatives_online") && negb nodeOverride = false ->
  cache_online_representatives ext action nodeOverride p = (Normal false, p).
Proof. intros H. unfold cache_online_representatives. rewrite H. reflexivity. Qed.

Lemma cache_online_representatives_miss p :
  truthy (getCache_store (cache p) repCacheKey)
    && truthy (prop (getCache_store (cache p) repCacheKey) "length") = false ->
  cache_online_representatives ext (VStr "representatives_online") false p =
    (Normal true, logged p (GetCache repCacheKey)).
Proof.
  intros Hm. unfold cache_online_representatives. cbn.
  unfold mbind at 1, M_bind at 1. rewrite getCache_run.
  cbn [cache logged]. rewrite Hm. reflexivity.
Qed.

(** The DPoW branch: one call to the delegate; an answer that carries a
    work value is pushed by [putCache], whose error is then reported; any
    other answer is relayed, and so is a failure of the call. *)
Lemma use_dpow_run hash p :
  use_dpow cfg ext hash p =
    let p1 := logged p (Request (dpow_options cfg hash)) in
    match request ext (dpow_options cfg hash) with
    | Resolved res =>
        (Normal tt,
         responded
           (if truthy res && truthy (prop res "work")
            then stored (logged p1 (PutCache hash (prop res "work") None))
                   (Store (workCache (cache p) ++ [Entry hash (prop res "work")]))
            else p1)
           (work_reply (Resolved res)))
    | Rejected err => (Normal tt, responded p1 (Response 500 (VStr err)))
    end.
Proof.
  unfold use_dpow, catch. unfold mbind at 1, M_bind at 1. rewrite request_run.
  destruct (request ext (dpow_options cfg hash)) as [res|err]; [|reflexivity].
  cbv zeta. unfold work_reply, mbind, M_bind, when.
  destruct (truthy res && truthy (prop res "work")); reflexivity.
Qed.

Lemma use_dpow_returns hash p :
  exists p', use_dpow cfg ext hash p = (Normal tt, p').
Proof.
  rewrite use_dpow_run. cbv zeta.
  destruct (request ext (dpow_options cfg hash)); eexists; reflexivity.
Qed.

(** The timestamp stage is the response enricher, for every request. *)
Lemma add_timestamps_run req res p :
  add_timestamps ext req res p =
    let p' := Process (cache p) (sent p) (log p ++ timestamps_calls req res) in
    match enriched ext req res with
    | Resolved v => (Normal v, p')
    | Rejected err => (Throw err, p')
    end.
Proof.
  unfold add_timestamps, enriched, timestamps_calls. cbv zeta.
  destruct p as [c s l].
  destruct (prop (req_body req) "action") as [| |b|n|a|elems|fields];
    try (cbn; rewrite app_nil_r; reflexivity).
  destruct (String.eqb_spec a "account_history") as [->|H1].
  { cbn. unfold timestamps_mapAccountHistory, emit, mbind, M_bind. cbn.
    destruct (mapAccountHistory ext res); reflexivity. }
  destruct (String.eqb_spec a "blocks_info") as [->|H2].
  { cbn. unfold timestamps_mapBlocksInfo, emit, mbind, M_bind. cbn.
    destruct (mapBlocksInfo ext _ res); reflexivity. }
  destruct (String.eqb_spec a "pending") as [->|H3].
  { cbn. unfold timestamps_mapPending, emit, mbind, M_bind. cbn.
    destruct (mapPending ext res); reflexivity. }
  cbn.
  destruct (String.eqb_spec a "account_history"); [congruence|].
  destruct (String.eqb_spec a "blocks_info"); [congruence|].
  destruct (String.eqb_spec a "pending"); [congruence|].
  cbn. rewrite app_nil_r. reflexivity.
Qed.

(** The write-back of an overridden request does nothing. *)
Lemma cache_write_back_override hash workRequest representativeRequest res p :
  cache_write_back ext hash workRequest representativeRequest true res p
    = (Normal tt, p).
Proof. unfold cache_write_back. rewrite andb_false_r. reflexivity. Qed.

(** The write-back of a request that is neither a work request nor a
    request for the representatives does nothing. *)
Lemma cache_write_back_plain hash nodeOverride res p :
  cache_write_back ext hash false false nodeOverride res p = (Normal tt, p).
Proof.
  unfold cache_write_back.
  destruct (truthy res && negb nodeOverride); reflexivity.
Qed.

(** The write-back of a work request: an answer with a work value is
    pushed, and the call throws; any other answer is left alone. *)
Lemma cache_write_back_work hash res p :
  cache_write_back ext hash true false false res p =
    if truthy res && truthy (prop res "work")
    then (Throw "ReferenceError: memoryCacheLength is not defined",
          stored (logged p (PutCache hash (prop res "work") None))
            (Store (workCache (cache p) ++ [Entry hash (prop res "work")])))
    else (Normal tt, p).
Proof.
  unfold cache_write_back. cbn [negb andb]. rewrite andb_true_r.
  destruct (truthy res); cbn [andb when]; [|reflexivity].
  destruct (truthy (prop res "work")); reflexivity.
Qed.

(** The write-back of a request for the representatives: an answer that
    carries them is handed to [putCache] with a TTL of five minutes,
    which stores nothing. *)
Lemma cache_write_back_representatives hash res p :
  cache_write_back ext hash false true false res p =
    if truthy res && truthy (prop res "representatives")
    then (Normal tt,
          logged p (PutCache repCacheKey (JSON_stringify ext res) (Some 300)))
    else (Normal tt, p).
Proof.
  unfold cache_write_back. cbn [negb andb]. rewrite andb_true_r.
  destruct (truthy res); cbn [andb when]; [|reflexivity].
  destruct (truthy (prop res "representatives")); [|reflexivity].
  unfold mbind, M_bind. cbn [mret M_ret when].
  apply putCache_run_time. discriminate.
Qed.

(** The write-back never returns out of the handler and sends nothing;
    it adds at most one call of [putCache] to the log. *)
Lemma cache_write_back_run hash workRequest representativeRequest nodeOverride res p :
  exists c p',
    cache_write_back ext hash workRequest representativeRequest nodeOverride res p
      = (c, p') /\
    c <> Return /\
    sent p' = sent p /\
    exists calls, log p' = log p ++ calls /\ requests calls = [].
Proof.
  unfold cache_write_back, when.
  destruct (truthy res && negb nodeOverride).
  2: { exists (Normal tt), p. repeat split; [discriminate|].
       exists []. rewrite app_nil_r. split; reflexivity. }
  unfold mbind, M_bind.
  destruct (workRequest && truthy (prop res "work")).
  - rewrite putCache_run_no_time. do 2 eexists. split; [reflexivity|].
    split; [discriminate|]. split; [reflexivity|].
    eexists. split; reflexivity.
  - cbn [mret M_ret].
    destruct (representativeRequest && truthy (prop res "representatives")).
    + rewrite putCache_run_time by discriminate.
      do 2 eexists. split; [reflexivity|].
      split; [discriminate|]. split; [reflexivity|].
      eexists. split; reflexivity.
    + exists (Normal tt), p. repeat split; [discriminate|].
      exists []. rewrite app_nil_r. split; reflexivity.
Qed.

(** The call to the node: one request; on an answer the write-back, the
    timestamp stage and the relay of its result, or the report of the
    error that the write-back throws; on a failure the relay of the
    error. *)
Lemma send_to_node_run req nodeUrl workRequest representativeRequest nodeOverride p :
  send_to_node ext req nodeUrl workRequest representativeRequest nodeOverride p =
    let o := Options "post" nodeUrl (req_body req) in
    let p1 := logged p (Request o) in
    match request ext o with
    | Resolved res =>
        let written := cache_write_back ext (prop (req_body req) "hash")
                         workRequest representativeRequest nodeOverride res p1 in
        let p2 := written.2 in
        match written.1 with
        | Throw err => (Normal tt, responded p2 (Response 500 (VStr err)))
        | _ =>
            (Normal tt,
             responded
               (Process (cache p2) (sent p2) (log p2 ++ timestamps_calls req res))
               (relayed (enriched ext req res)))
        end
    | Rejected err => (Normal tt, responded p1 (Response 500 (VStr err)))
    end.
Proof.
  unfold send_to_node, catch. unfold mbind at 1, M_bind at 1. rewrite request_run.
  cbv zeta. destruct (request ext _) as [res|err]; [|reflexivity].
  unfold mbind at 1, M_bind at 1.
  destruct (cache_write_back_run (prop (req_body req) "hash") workRequest
              representativeRequest nodeOverride res
              (logged p (Request (Options "post" nodeUrl (req_body req)))))
    as (c & p2 & Hwb & Hc & _).
  rewrite Hwb. cbn [fst snd]. destruct c as [[]| |err]; [|congruence|reflexivity].
  unfold mbind, M_bind. rewrite add_timestamps_run. cbv zeta.
  destruct (enriched ext req res); reflexivity.
Qed.

End Stages.

(** ** What the router stores *)

Create HintDb keeps.

Section Keeps.
Context (I : store -> Prop).

Lemma keeps_ret {A} (a : A) : keeps I (mret a).
Proof. intros p Hp. exact Hp. Qed.

Lemma keeps_bind {A B} (m : M A) (k : A -> M B) :
  keeps I m -> (forall a, keeps I (k a)) -> keeps I (m ≫= k).
Proof.
  intros Hm Hk p Hp. unfold mbind, M_bind.
  specialize (Hm p Hp). destruct (m p) as [[a| |err] p']; cbn in *.
  - apply Hk, Hm.
  - exact Hm.
  - exact Hm.
Qed.

Lemma keeps_return {A} : keeps I (@return_ A).
Proof. intros p Hp. exact Hp. Qed.

Lemma keeps_throw {A} err : keeps I (@throw A err).
Proof. intros p Hp. exact Hp. Qed.

Lemma keeps_await {A} (x : settled A) : keeps I (await x).
Proof. destruct x; intros p Hp; exact Hp. Qed.

Lemma keeps_emit e : keeps I (emit e).
Proof. intros p Hp. exact Hp. Qed.

Lemma keeps_res_json code v : keeps I (res_json code v).
Proof. intros p Hp. exact Hp. Qed.

Lemma keeps_when b m : keeps I m -> keeps I (when b m).
Proof. destruct b; [tauto | intros _; apply keeps_ret]. Qed.

Lemma keeps_catch m handler :
  keeps I m -> (forall err, keeps I (handler err)) -> keeps I (catch m handler).
Proof.
  intros Hm Hh p Hp. unfold catch.
  specialize (Hm p Hp). destruct (m p) as [[a| |err] p']; cbn in *.
  - exact Hm.
  - exact Hm.
  - apply Hh, Hm.
Qed.

Lemma keeps_getCache h : keeps I (getCache h).
Proof. intros p Hp. exact Hp. Qed.

End Keeps.

#[export] Hint Resolve keeps_ret keeps_return keeps_throw keeps_await keeps_emit
  keeps_res_json keeps_getCache : keeps.

Ltac keeps_step :=
  first
    [ solve [auto with keeps]
    | match goal with
      | |- keeps _ (if ?b then _ else _) => destruct b eqn:?
      | |- keeps _ (match ?x with _ => _ end) => destruct x eqn:?
      | |- keeps _ (_ ≫= _) => apply keeps_bind; [|intros ?]
      | |- keeps _ (when _ _) => apply keeps_when
      | |- keeps _ (catch _ _) => apply keeps_catch; [|intros ?]
      end ].

Section Stored.
Context (cfg : config) (ext : externals).

Lemma truthy_works_put st h w time :
  time_given time = true \/ truthy w = true ->
  truthy_works st -> truthy_works (putCache_store st h w time).2.
Proof.
  unfold truthy_works, putCache_store, putCache_memory. intros Hw Hst.
  destruct (time_given time); [exact Hst|].
  destruct Hw as [Hw|Hw]; [discriminate|].
  cbn. apply Forall_app. split; [exact Hst | repeat constructor; exact Hw].
Qed.

Lemma keeps_putCache h w time :
  time_given time = true \/ truthy w = true ->
  keeps truthy_works (putCache h w time).
Proof.
  intros Hw. unfold putCache. apply keeps_bind; [auto with keeps | intros _].
  intros p Hp. apply truthy_works_put; assumption.
Qed.

Lemma keeps_request o : keeps truthy_works (request_promise ext o).
Proof. unfold request_promise. repeat keeps_step. Qed.

#[local] Hint Resolve keeps_request : keeps.

Lemma keeps_guarded_putCache b h w :
  keeps truthy_works (when (b && truthy w) (putCache h w None)).
Proof.
  destruct b, (truthy w) eqn:Hw; cbn [andb when]; auto with keeps.
  apply keeps_putCache. right. exact Hw.
Qed.

#[local] Hint Resolve keeps_guarded_putCache : keeps.

Lemma keeps_node_api req : keeps truthy_works (node_api cfg ext req).
Proof.
  unfold node_api, check_allowed, cache_work_requests, cache_online_representatives,
    use_dpow, send_to_node, cache_write_back, add_timestamps,
    timestamps_mapAccountHistory, timestamps_mapBlocksInfo, timestamps_mapPending.
  cbv zeta.
  repeat keeps_step.
  apply keeps_putCache. left. reflexivity.
Qed.

Lemma keeps_getRecommendedReps : keeps truthy_works (getRecommendedReps ext).
Proof.
  unfold getRecommendedReps. repeat keeps_step.
  apply keeps_putCache. left. reflexivity.
Qed.

#[local] Hint Resolve keeps_getRecommendedReps : keeps.

Lemma keeps_recommended_representatives :
  keeps truthy_works (recommended_representatives ext).
Proof. unfold recommended_representatives. repeat keeps_step. Qed.

End Stored.

(** The router never stores a falsy work value in [workCache]. *)
Lemma reachable_truthy_works cfg st : reachable cfg st -> truthy_works st.
Proof.
  induction 1 as [_|ext req st _ IH|ext st _ IH|ext st _ IH].
  - constructor.
  - apply (keeps_node_api cfg ext req (Process st [] [])), IH.
  - apply (keeps_recommended_representatives ext (Process st [] [])), IH.
  - apply (keeps_getRecommendedReps ext (Process st [] [])), IH.
Qed.

(** A string read from a reachable cache is never empty. *)
Lemma cached_string_nonempty cfg st h w :
  reachable cfg st ->
  getCache_store st h = VStr w ->
  w ≠ "".
Proof.
  intros Hst. apply reachable_truthy_works in Hst.
  unfold getCache_store, getCache_memory.
  destruct (find _ _) as [e|] eqn:Hfind; [|discriminate].
  apply find_some in Hfind as [Hin _].
  intros Hw ->.
  unfold truthy_works in Hst. rewrite Forall_forall in Hst.
  apply list_elem_of_In in Hin. specialize (Hst e Hin).
  rewrite Hw in Hst. discriminate.
Qed.

(** ** The router *)

Section Router.
Context (cfg : config) (ext : externals).
Implicit Types (req : incoming) (st : store).

(** A request whose action is missing or not listed reaches neither the
    cache nor the network; it is answered with the error that names the
    action whenever the action converts to a string. *)
Lemma unlisted_action_rejected req st :
  negb (truthy (prop (req_body req) "action"))
    || not_listed (prop (req_body req) "action") = true ->
  let p := (serve (node_api cfg ext req) st).2 in
  log p = [] /\
  cache p = st /\
  sent p =
    match to_string (Number_toString ext) (prop (req_body req) "action") with
    | Some name =>
        [Response 500 (error_object ("Action " +:+ name +:+ " not allowed"))]
    | None => []
    end.
Proof.
  intros Hr. cbv zeta. unfold serve, node_api. cbv zeta.
  destruct (to_string (Number_toString ext) (prop (req_body req) "action"))
    as [name|] eqn:Hs.
  - erewrite bind_return by (apply check_allowed_reject; eassumption).
    repeat split.
  - erewrite bind_throw by (apply check_allowed_throw; eassumption).
    repeat split.
Qed.

(** The handler on a work request that is not overridden, from the cache
    lookup on. *)
Lemma node_api_work req st cached :
  prop (req_body req) "action" = VStr "work_generate" ->
  valid_override req = false ->
  truthy (prop (req_body req) "hash") = true ->
  getCache_store st (prop (req_body req) "hash") = cached ->
  serve (node_api cfg ext req) st =
    let hash := prop (req_body req) "hash" in
    let p := Process st [] [GetCache hash] in
    if truthy cached && truthy (prop cached "length")
    then (Return, responded p (Response 200 (VObj [("work", cached)])))
    else if useDPoW cfg
         then (Return, (use_dpow cfg ext hash p).2)
         else send_to_node ext req (VStr (nanoWorkNodeUrl cfg)) true false false p.
Proof.
  intros Ha Ho Hh Hc. unfold serve, node_api. rewrite Ha, Ho. cbv zeta.
  erewrite bind_normal by (apply check_allowed_pass; reflexivity).
  pose proof (cache_work_requests_lookup (prop (req_body req) "hash")
                (Process st [] []) Hh) as Hw.
  cbv zeta in Hw. cbn [cache] in Hw. rewrite Hc in Hw.
  destruct (truthy cached && truthy (prop cached "length")).
  - erewrite bind_return by exact Hw. reflexivity.
  - erewrite bind_normal by exact Hw.
    erewrite bind_normal
      by (apply cache_online_representatives_other; reflexivity).
    cbn [orb andb negb].
    destruct (useDPoW cfg); cbn [when].
    + destruct (use_dpow_returns cfg ext (prop (req_body req) "hash")
                  (Process st [] [GetCache (prop (req_body req) "hash")]))
        as [p' Hp'].
      rewrite Hp'. unfold mbind, M_bind, logged. cbn [cache sent log app].
      rewrite Hp'. reflexivity.
    + destruct (req_query_node req); reflexivity.
Qed.

(** The handler on a request for the online representatives that is not
    overridden and misses the cache. *)
Lemma node_api_representatives_miss req st cached :
  prop (req_body req) "action" = VStr "representatives_online" ->
  valid_override req = false ->
  getCache_store st repCacheKey = cached ->
  truthy cached && truthy (prop cached "length") = false ->
  serve (node_api cfg ext req) st =
    send_to_node ext req (VStr (nanoWorkNodeUrl cfg)) false true false
      (Process st [] [GetCache repCacheKey]).
Proof.
  intros Ha Ho Hc Hm. subst cached. unfold serve, node_api. rewrite Ha, Ho. cbv zeta.
  erewrite bind_normal by (apply check_allowed_pass; reflexivity).
  erewrite bind_normal by (apply cache_work_requests_other; reflexivity).
  erewrite bind_normal
    by (apply cache_online_representatives_miss; exact Hm).
  cbn [orb andb negb when]. unfold mbind, M_bind, mret, M_ret.
  destruct (req_query_node req); reflexivity.
Qed.

(** The handler on an overridden request with a listed action. *)
Lemma node_api_override req st node :
  not_listed (prop (req_body req) "action") = false ->
  req_query_node req = Some node ->
  valid_override req = true ->
  serve (node_api cfg ext req) st =
    send_to_node ext req (VStr node) false false true (Process st [] []).
Proof.
  intros Hl Hn Ho. unfold serve, node_api. rewrite Ho, Hn. cbv zeta.
  erewrite bind_normal
    by (apply check_allowed_pass; [apply listed_action_truthy|]; exact Hl).
  erewrite bind_normal
    by (apply cache_work_requests_other, andb_false_r).
  erewrite bind_normal
    by (apply cache_online_representatives_other, andb_false_r).
  reflexivity.
Qed.

(** C1, amended. A request that carries a valid override (a [node] query
    parameter longer than 4 characters) leaves the cache as it is and
    makes no call to [getCache] or [putCache]. When its action is listed,
    exactly one request goes out, to the override URL, and the timestamp
    enrichment is not skipped: the answer passes through the same
    enricher as without an override ([account_history], [blocks_info]
    and [pending] are transformed, any other action is relayed as it
    is). *)
Theorem override_bypasses_cache_not_enrichment req st node :
  req_query_node req = Some node ->
  valid_override req = true ->
  let upstream := Options "post" (VStr node) (req_body req) in
  let p := (serve (node_api cfg ext req) st).2 in
  cache p = st /\
  Forall (fun e => is_cache_call e = false) (log p) /\
  (not_listed (prop (req_body req) "action") = false ->
   requests (log p) = [upstream] /\
   sent p = [match request ext upstream with
             | Resolved res => relayed (enriched ext req res)
             | Rejected err => Response 500 (VStr err)
             end]).
Proof.
  intros Hn Ho. cbv zeta.
  destruct (not_listed (prop (req_body req) "action")) eqn:Hl.
  { destruct (unlisted_action_rejected req st) as (Hlog & Hcache & _).
    - rewrite Hl. apply orb_true_r.
    - cbv zeta in Hlog, Hcache. rewrite Hlog, Hcache.
      split; [reflexivity|]. split; [constructor | discriminate]. }
  rewrite (node_api_override req st node Hl Hn Ho).
  rewrite send_to_node_run. cbv zeta.
  destruct (request ext _) as [res|err].
  - rewrite cache_write_back_override.
    destruct (timestamps_calls_quiet req res) as [Hreq Hquiet].
    cbn [fst snd cache sent log responded logged app].
    rewrite requests_request, Hreq. repeat split.
    constructor; [reflexivity | exact Hquiet].
  - repeat split. repeat constructor.
Qed.

(** C2. On a miss, [GET /api/recommended-representatives] runs the
    fetch-and-store routine (one call to the directory, then [putCache])
    but writes no response: nothing is sent to the client, whatever the
    directory answers. *)
Theorem recommended_representatives_miss st reps :
  getCache_store st (VStr "recommended-reps") = reps ->
  truthy reps = false ->
  let directory :=
    Options "get" (VStr "https://mynano.ninja/api/accounts/verified") VUndefined in
  let p := (serve (recommended_representatives ext) st).2 in
  sent p = [] /\
  requests (log p) = [directory] /\
  forall res, request ext directory = Resolved res ->
    cache p = (putCache_store st (VStr "recommended-reps")
                 (JSON_stringify ext res) (Some (45 * 60))).2.
Proof.
  intros Hc Hm. cbv zeta. unfold serve, recommended_representatives.
  erewrite bind_normal by apply getCache_run. cbn [cache].
  rewrite Hc, Hm. unfold getRecommendedReps.
  unfold mbind, M_bind. rewrite request_run.
  destruct (request ext _) as [res|err].
  - split; [reflexivity|]. split; [reflexivity|].
    intros res' [= <-]. destruct st. reflexivity.
  - split; [reflexivity|]. split; [reflexivity|]. discriminate.
Qed.

(** On a hit the same handler sends the parsed value. *)
Lemma recommended_representatives_hit st reps parsed :
  getCache_store st (VStr "recommended-reps") = reps ->
  truthy reps = true ->
  JSON_parse ext reps = Resolved parsed ->
  serve (recommended_representatives ext) st =
    (Return, Process st [Response 200 parsed] [GetCache (VStr "recommended-reps")]).
Proof.
  intros Hc Ht Hp. unfold serve, recommended_representatives.
  erewrite bind_normal by apply getCache_run. cbn [cache].
  rewrite Hc, Ht. unfold mbind, M_bind. rewrite Hp. reflexivity.
Qed.

(** C6. An action that is an object carrying an own property [toString]
    is truthy and not listed, and building the error message throws
    before [res.status(500).json] is called: the handler ends with an
    uncaught [TypeError] and no response, having touched neither the
    cache nor the network. *)
Theorem unconvertible_action_gets_no_response st :
  let req := Incoming (VObj [("action", VObj [("toString", VNum 1)])]) None in
  not_listed (prop (req_body req) "action") = true /\
  serve (node_api cfg ext req) st =
    (Throw "TypeError: Cannot convert object to primitive value", Process st [] []).
Proof.
  cbv zeta. split; [reflexivity|].
  unfold serve, node_api. cbv zeta.
  erewrite bind_throw by (apply check_allowed_throw; reflexivity).
  reflexivity.
Qed.

Lemma cached_work_hit req st w :
  prop (req_body req) "action" = VStr "work_generate" ->
  valid_override req = false ->
  truthy (prop (req_body req) "hash") = true ->
  getCache_store st (prop (req_body req) "hash") = VStr w ->
  w ≠ "" ->
  serve (node_api cfg ext req) st =
    (Return,
     Process st [Response 200 (VObj [("work", VStr w)])]
       [GetCache (prop (req_body req) "hash")]).
Proof.
  intros Ha Ho Hh Hc Hw.
  rewrite (node_api_work req st (VStr w) Ha Ho Hh Hc). cbv zeta.
  apply String.eqb_neq in Hw. rewrite truthy_nonempty, Hw. reflexivity.
Qed.

(** C7, amended. A work request that is not overridden and whose hash
    has a non-empty cached work value (a cached string of positive
    length) is answered with exactly [{work: cachedValue}]: the only call
    made is the cache lookup, so neither the work node nor the delegate
    is contacted, and the cache is left as it is. The same holds for the
    request repeated any number of times. Every string that a reachable
    cache holds for the hash is such a value. *)
Theorem cached_work_served_without_upstream req st :
  prop (req_body req) "action" = VStr "work_generate" ->
  valid_override req = false ->
  truthy (prop (req_body req) "hash") = true ->
  let hash := prop (req_body req) "hash" in
  let served w st :=
    Process st [Response 200 (VObj [("work", VStr w)])] [GetCache hash] in
  (forall w, w ≠ "" ->
     getCache_store st hash = VStr w ->
     serve (node_api cfg ext req) st = (Return, served w st)) /\
  (forall w n, w ≠ "" ->
     getCache_store st hash = VStr w ->
     serve_repeatedly (node_api cfg ext req) n st = repeat (served w st) n) /\
  (forall w,
     reachable cfg st ->
     getCache_store st hash = VStr w ->
     serve (node_api cfg ext req) st = (Return, served w st)).
Proof.
  intros Ha Ho Hh. cbv zeta. split; [|split].
  - intros w Hw Hc. apply cached_work_hit; assumption.
  - intros w n Hw Hc.
    induction n as [|n IH]; [reflexivity|].
    cbn [serve_repeatedly repeat].
    rewrite (cached_work_hit req st w Ha Ho Hh Hc Hw).
    cbn [snd cache]. f_equal. exact IH.
  - intros w Hst Hc. apply cached_work_hit; try assumption.
    exact (cached_string_nonempty cfg st _ w Hst Hc).
Qed.

(** C8. With the delegate enabled, a work request that is not overridden
    and misses the cache makes exactly one outbound call: a POST to the
    delegate whose body carries the hash of the request and
    [timeout: 10]; the work node is not called. When that call fails, the
    error is relayed with status 500, no further call is made and the
    cache is left as it is. *)
Theorem dpow_delegation req st cached :
  useDPoW cfg = true ->
  prop (req_body req) "action" = VStr "work_generate" ->
  valid_override req = false ->
  truthy (prop (req_body req) "hash") = true ->
  getCache_store st (prop (req_body req) "hash") = cached ->
  truthy cached && truthy (prop cached "length") = false ->
  let hash := prop (req_body req) "hash" in
  let delegate :=
    Options "post" (DPOW_URL cfg)
      (VObj [("user", DPOW_USER cfg); ("api_key", DPOW_KEY cfg);
             ("hash", hash); ("timeout", VNum 10)]) in
  let p := (serve (node_api cfg ext req) st).2 in
  requests (log p) = [delegate] /\
  forall err, request ext delegate = Rejected err ->
    sent p = [Response 500 (VStr err)] /\
    log p = [GetCache hash; Request delegate] /\
    cache p = st.
Proof.
  intros Hd Ha Ho Hh Hc Hm. cbv zeta.
  rewrite (node_api_work req st cached Ha Ho Hh Hc). cbv zeta.
  rewrite Hm, Hd. cbn [snd]. rewrite use_dpow_run. cbv zeta.
  fold (dpow_options cfg (prop (req_body req) "hash")).
  destruct (request ext (dpow_options cfg (prop (req_body req) "hash")))
    as [res|err'].
  - split; [|discriminate].
    destruct (truthy res && truthy (prop res "work")); reflexivity.
  - split; [reflexivity|]. intros err [= <-]. repeat split.
Qed.

(** The handler on a work request that is not overridden and misses the
    cache: one outbound call, and the reply to what it settles to. *)
Lemma node_api_work_miss req st cached :
  prop (req_body req) "action" = VStr "work_generate" ->
  valid_override req = false ->
  truthy (prop (req_body req) "hash") = true ->
  getCache_store st (prop (req_body req) "hash") = cached ->
  truthy cached && truthy (prop cached "length") = false ->
  let hash := prop (req_body req) "hash" in
  let p := (serve (node_api cfg ext req) st).2 in
  sent p = [work_reply (request ext (work_call cfg req))] /\
  match request ext (work_call cfg req) with
  | Resolved res =>
      if truthy res && truthy (prop res "work")
      then log p = [GetCache hash; Request (work_call cfg req);
                    PutCache hash (prop res "work") None] /\
           cache p = Store (workCache st ++ [Entry hash (prop res "work")])
      else log p = [GetCache hash; Request (work_call cfg req)] /\ cache p = st
  | Rejected _ =>
      log p = [GetCache hash; Request (work_call cfg req)] /\ cache p = st
  end.
Proof.
  intros Ha Ho Hh Hc Hm. cbv zeta.
  rewrite (node_api_work req st cached Ha Ho Hh Hc). cbv zeta. rewrite Hm.
  unfold work_call. destruct (useDPoW cfg).
  - cbn [snd]. rewrite use_dpow_run. cbv zeta.
    destruct (request ext _) as [res|err]; [|repeat split].
    unfold work_reply.
    destruct (truthy res && truthy (prop res "work")); repeat split.
  - rewrite send_to_node_run. cbv zeta.
    destruct (request ext _) as [res|err]; [|repeat split].
    rewrite cache_write_back_work. unfold work_reply.
    destruct (truthy res && truthy (prop res "work")); [repeat split|].
    destruct (enriched_other ext req res) as [-> ->];
      try (rewrite Ha; reflexivity).
    repeat split.
Qed.


(** C10. The hit test holds for a cached string exactly when the string
    is not empty. A request for work ([work_generate], with a hash) or
    for the online representatives that is not overridden and finds the
    empty string under its key is treated as a miss: after the lookup the
    handler makes one outbound call, to the delegate or to the work node,
    and its response is the reply to what that call settles to, not the
    cached value. *)
Theorem empty_cached_value_is_a_miss req st :
  valid_override req = false ->
  (forall s,
     truthy (VStr s) && truthy (prop (VStr s) "length") = negb (String.eqb s "")) /\
  (prop (req_body req) "action" = VStr "work_generate" ->
   truthy (prop (req_body req) "hash") = true ->
   getCache_store st (prop (req_body req) "hash") = VStr "" ->
   let p := (serve (node_api cfg ext req) st).2 in
   head (log p) = Some (GetCache (prop (req_body req) "hash")) /\
   requests (log p) = [work_call cfg req] /\
   sent p = [work_reply (request ext (work_call cfg req))]) /\
  (prop (req_body req) "action" = VStr "representatives_online" ->
   getCache_store st repCacheKey = VStr "" ->
   let node := Options "post" (VStr (nanoWorkNodeUrl cfg)) (req_body req) in
   let p := (serve (node_api cfg ext req) st).2 in
   head (log p) = Some (GetCache repCacheKey) /\
   requests (log p) = [node] /\
   sent p = [relayed (request ext node)]).
Proof.
  intros Ho. split; [exact truthy_nonempty|]. split.
  - intros Ha Hh Hc. cbv zeta.
    destruct (node_api_work_miss req st (VStr "") Ha Ho Hh Hc eq_refl)
      as [Hsent Hrest].
    cbv zeta in Hrest. split; [|split; [|exact Hsent]].
    + destruct (request ext _) as [res|err];
        [destruct (truthy res && truthy (prop res "work"))|];
        destruct Hrest as [-> _]; reflexivity.
    + destruct (request ext _) as [res|err];
        [destruct (truthy res && truthy (prop res "work"))|];
        destruct Hrest as [-> _]; reflexivity.
  - intros Ha Hc. cbv zeta.
    rewrite (node_api_representatives_miss req st (VStr "") Ha Ho Hc)
      by reflexivity.
    rewrite send_to_node_run. cbv zeta.
    destruct (request ext _) as [res|err]; [|repeat split].
    rewrite cache_write_back_representatives.
    destruct (enriched_other ext req res) as [-> ->];
      try (rewrite Ha; reflexivity).
    destruct (truthy res && truthy (prop res "representatives")); repeat split.
Qed.

End Router.

(** * Further properties *)

(** ** The router, request by request *)

Section Further.
Context (cfg : config) (ext : externals).
Implicit Types (req : incoming) (st : store) (p : process).

(** X4. A work request without a hash is refused before the cache is read:
    status 500, no lookup, no outbound call. *)
Theorem work_without_hash_rejected req st :
  prop (req_body req) "action" = VStr "work_generate" ->
  valid_override req = false ->
  truthy (prop (req_body req) "hash") = false ->
  serve (node_api cfg ext req) st =
    (Return,
     Process st [Response 500 (error_object "Requires valid hash to perform work")] []).
Proof.
  intros Ha Ho Hh. unfold serve, node_api. rewrite Ha, Ho. cbv zeta.
  erewrite bind_normal by (apply check_allowed_pass; reflexivity).
  unfold cache_work_requests. cbn [strict_eq String.eqb Ascii.eqb Bool.eqb negb andb].
  rewrite Hh. reflexivity.
Qed.

Lemma node_api_plain req st :
  not_listed (prop (req_body req) "action") = false ->
  strict_eq (prop (req_body req) "action") (VStr "work_generate") = false ->
  strict_eq (prop (req_body req) "action") (VStr "representatives_online") = false ->
  valid_override req = false ->
  serve (node_api cfg ext req) st =
    send_to_node ext req (VStr (nanoNodeUrl cfg)) false false false
      (Process st [] []).
Proof.
  intros Hl Hw Hr Ho. unfold serve, node_api. rewrite Ho. cbv zeta.
  erewrite bind_normal
    by (apply check_allowed_pass; [apply listed_action_truthy|]; exact Hl).
  erewrite bind_normal
    by (apply cache_work_requests_other; rewrite Hw; reflexivity).
  erewrite bind_normal
    by (apply cache_online_representatives_other; rewrite Hr; reflexivity).
  cbn [orb andb negb when]. destruct (req_query_node req); reflexivity.
Qed.

(** X5. A listed action other than [work_generate] and
    [representatives_online], without override, goes to the Nano node of
    [nanoNodeUrl] in one call that forwards the body; the cache is
    neither read nor written; the client gets the enriched answer, or
    status 500 with the error text when the call or the enrichment
    fails. *)
Theorem other_actions_go_to_the_node req st :
  not_listed (prop (req_body req) "action") = false ->
  strict_eq (prop (req_body req) "action") (VStr "work_generate") = false ->
  strict_eq (prop (req_body req) "action") (VStr "representatives_online") = false ->
  valid_override req = false ->
  let node := Options "post" (VStr (nanoNodeUrl cfg)) (req_body req) in
  let p := (serve (node_api cfg ext req) st).2 in
  cache p = st /\
  log p = Request node ::
            match request ext node with
            | Resolved res => timestamps_calls req res
            | Rejected _ => []
            end /\
  sent p = [match request ext node with
            | Resolved res => relayed (enriched ext req res)
            | Rejected err => Response 500 (VStr err)
            end].
Proof.
  intros Hl Hw Hr Ho. cbv zeta.
  rewrite (node_api_plain req st Hl Hw Hr Ho), send_to_node_run. cbv zeta.
  destruct (request ext _) as [res|err]; [|repeat split].
  rewrite cache_write_back_plain. repeat split.
Qed.

(** X6. A [node] parameter of at most four characters is no override: the
    request is handled as if the query string had none. *)
Theorem short_override_ignored body node st :
  (String.length node <= 4)%nat ->
  serve (node_api cfg ext (Incoming body (Some node))) st =
    serve (node_api cfg ext (Incoming body None)) st.
Proof.
  intros Hn.
  assert (Ho : valid_override (Incoming body (Some node)) = false).
  { unfold valid_override. cbn [req_query_node].
    apply andb_false_iff. right. apply Z.ltb_ge. lia. }
  unfold serve, node_api. rewrite Ho.
  cbn [req_body req_query_node valid_override]. cbv zeta.
  unfold send_to_node, add_timestamps. cbn [req_body]. reflexivity.
Qed.

Lemma node_api_representatives_hit req st cached :
  prop (req_body req) "action" = VStr "representatives_online" ->
  valid_override req = false ->
  getCache_store st repCacheKey = cached ->
  truthy cached && truthy (prop cached "length") = true ->
  serve (node_api cfg ext req) st =
    match JSON_parse ext cached with
    | Resolved parsed =>
        (Return, Process st [Response 200 parsed] [GetCache repCacheKey])
    | Rejected err => (Throw err, Process st [] [GetCache repCacheKey])
    end.
Proof.
  intros Ha Ho Hc Hhit. subst cached.
  unfold serve, node_api. rewrite Ha, Ho. cbv zeta.
  erewrite bind_normal by (apply check_allowed_pass; reflexivity).
  erewrite bind_normal by (apply cache_work_requests_other; reflexivity).
  unfold cache_online_representatives.
  cbn [strict_eq String.eqb Ascii.eqb Bool.eqb negb andb].
  unfold mbind at 2, M_bind at 2.
  unfold mbind at 1, M_bind at 1.
  erewrite bind_normal by apply getCache_run.
  cbn [cache]. rewrite Hhit. cbn [when]. unfold mbind, M_bind.
  destruct (JSON_parse ext _); reflexivity.
Qed.

(** X7. A request for the online representatives that finds a non-empty
    value under the key makes no outbound call and leaves the cache as
    it is: the client gets the parsed value; when the value does not
    parse, the handler ends with the uncaught error and the client gets
    no response. *)
Theorem representatives_served_from_cache req st cached :
  prop (req_body req) "action" = VStr "representatives_online" ->
  valid_override req = false ->
  getCache_store st repCacheKey = cached ->
  truthy cached && truthy (prop cached "length") = true ->
  let run := serve (node_api cfg ext req) st in
  log (run.2) = [GetCache repCacheKey] /\
  cache (run.2) = st /\
  match JSON_parse ext cached with
  | Resolved parsed => run.1 = Return /\ sent (run.2) = [Response 200 parsed]
  | Rejected err => run.1 = Throw err /\ sent (run.2) = []
  end.
Proof.
  intros Ha Ho Hc Hhit. cbv zeta.
  rewrite (node_api_representatives_hit req st cached Ha Ho Hc Hhit).
  destruct (JSON_parse ext cached); repeat split.
Qed.

(** X8. Only an action that is one of the listed strings passes the
    allowlist. [indexOf] compares with [===], so an action that is not a
    string is refused even when its string conversion, which the error
    message shows, is a listed name; a refused request reaches neither
    the cache nor the network. *)
Theorem only_listed_strings_pass req st :
  (forall a, In a allowedActions -> prop (req_body req) "action" <> VStr a) ->
  let p := (serve (node_api cfg ext req) st).2 in
  log p = [] /\
  cache p = st /\
  forall name,
    to_string (Number_toString ext) (prop (req_body req) "action") = Some name ->
    sent p = [Response 500 (error_object ("Action " +:+ name +:+ " not allowed"))].
Proof.
  intros Hnot.
  assert (Hl : not_listed (prop (req_body req) "action") = true).
  { unfold not_listed. apply negb_true_iff.
    destruct (existsb _ allowedActions) eqn:He; [|reflexivity].
    apply existsb_exists in He as (a & Hin & Heq).
    destruct (prop (req_body req) "action") as [| | | |s| |] eqn:Ha;
      try discriminate Heq.
    cbn in Heq. apply String.eqb_eq in Heq. subst s.
    exfalso. exact (Hnot a Hin eq_refl). }
  destruct (unlisted_action_rejected cfg ext req st) as (Hlog & Hcache & Hsent).
  { rewrite Hl. apply orb_true_r. }
  cbv zeta in *. split; [exact Hlog|]. split; [exact Hcache|].
  intros name Hs. rewrite Hsent, Hs. reflexivity.
Qed.

End Further.

(** ** The online representatives and the work answers *)

Section Representatives.
Context (cfg : config) (ext : externals).
Implicit Types (req : incoming) (st : store) (p : process).

(** The handler on a request for the online representatives that is not
    overridden and misses the cache. *)
Lemma node_api_representatives_answered req st :
  prop (req_body req) "action" = VStr "representatives_online" ->
  valid_override req = false ->
  truthy (getCache_store st repCacheKey)
    && truthy (prop (getCache_store st repCacheKey) "length") = false ->
  serve (node_api cfg ext req) st =
    let node := Options "post" (VStr (nanoWorkNodeUrl cfg)) (req_body req) in
    (Normal tt,
     Process st [relayed (request ext node)]
       (GetCache repCacheKey :: Request node ::
        match request ext node with
        | Resolved res =>
            if truthy res && truthy (prop res "representatives")
            then [PutCache repCacheKey (JSON_stringify ext res) (Some 300)]
            else []
        | Rejected _ => []
        end)).
Proof.
  intros Ha Ho Hm.
  rewrite (node_api_representatives_miss cfg ext req st _ Ha Ho eq_refl Hm).
  rewrite send_to_node_run. cbv zeta.
  destruct (request ext _) as [res|err]; [|reflexivity].
  rewrite cache_write_back_representatives.
  destruct (enriched_other ext req res) as [-> ->];
    try (rewrite Ha; reflexivity).
  destruct (truthy res && truthy (prop res "representatives")); reflexivity.
Qed.

(** X9. A request for the online representatives that misses the cache
    is sent to the work node; an answer that carries representatives is
    relayed and handed to [putCache] as its JSON text with a TTL of five
    minutes, of which the cache stores nothing. *)
Theorem representatives_written_back req st cached res :
  prop (req_body req) "action" = VStr "representatives_online" ->
  valid_override req = false ->
  getCache_store st repCacheKey = cached ->
  truthy cached && truthy (prop cached "length") = false ->
  request ext (Options "post" (VStr (nanoWorkNodeUrl cfg)) (req_body req))
    = Resolved res ->
  truthy res && truthy (prop res "representatives") = true ->
  let node := Options "post" (VStr (nanoWorkNodeUrl cfg)) (req_body req) in
  let text := JSON_stringify ext res in
  let p := (serve (node_api cfg ext req) st).2 in
  log p = [GetCache repCacheKey; Request node; PutCache repCacheKey text (Some 300)] /\
  sent p = [Response 200 res] /\
  cache p = st.
Proof.
  intros Ha Ho Hc Hm Hres Hreps. subst cached. cbv zeta.
  rewrite (node_api_representatives_answered req st Ha Ho Hm).
  cbv zeta. rewrite Hres, Hreps. repeat split.
Qed.

(** X10. The online representatives are never served from the cache
    that the router fills: while the lookup under their key misses,
    every request for them, however often repeated, calls the work node
    again and leaves the cache as it is. *)
Theorem representatives_never_cached req st n :
  prop (req_body req) "action" = VStr "representatives_online" ->
  valid_override req = false ->
  truthy (getCache_store st repCacheKey)
    && truthy (prop (getCache_store st repCacheKey) "length") = false ->
  Forall
    (fun p =>
       requests (log p) =
         [Options "post" (VStr (nanoWorkNodeUrl cfg)) (req_body req)] /\
       cache p = st)
    (serve_repeatedly (node_api cfg ext req) n st).
Proof.
  intros Ha Ho Hm. induction n as [|n IH]; [constructor|].
  cbn [serve_repeatedly].
  rewrite (node_api_representatives_answered req st Ha Ho Hm).
  cbv zeta. cbn [snd cache]. constructor; [|exact IH].
  cbn [log cache]. split; [|reflexivity].
  destruct (request ext _) as [res|err]; [|reflexivity].
  destruct (truthy res && truthy (prop res "representatives")); reflexivity.
Qed.

(** X11. An answer to a work request that carries no work value (an error
    object of the node, say) is relayed as it is, with status 200, and
    nothing is written to the cache. *)
Theorem answer_without_work_not_cached req st cached res :
  prop (req_body req) "action" = VStr "work_generate" ->
  valid_override req = false ->
  truthy (prop (req_body req) "hash") = true ->
  getCache_store st (prop (req_body req) "hash") = cached ->
  truthy cached && truthy (prop cached "length") = false ->
  request ext (work_call cfg req) = Resolved res ->
  truthy res && truthy (prop res "work") = false ->
  let p := (serve (node_api cfg ext req) st).2 in
  sent p = [Response 200 res] /\
  cache p = st /\
  log p = [GetCache (prop (req_body req) "hash"); Request (work_call cfg req)].
Proof.
  intros Ha Ho Hh Hc Hm Hres Hwork. cbv zeta.
  destruct (node_api_work_miss cfg ext req st cached Ha Ho Hh Hc Hm)
    as [Hsent Hrest].
  cbv zeta in Hrest. rewrite Hres in Hsent, Hrest.
  unfold work_reply in Hsent. rewrite Hwork in Hsent, Hrest.
  destruct Hrest as [Hlog Hcache].
  split; [exact Hsent|]. split; [exact Hcache | exact Hlog].
Qed.

End Representatives.

(** ** A value stored by one request and read by the next *)

Section Reuse.
Context (cfg : config) (ext : externals).
Implicit Types (req : incoming) (st : store) (p : process).

Lemma node_api_work_stored req st res :
  prop (req_body req) "action" = VStr "work_generate" ->
  valid_override req = false ->
  truthy (prop (req_body req) "hash") = true ->
  find (fun e => strict_eq (hash e) (prop (req_body req) "hash")) (workCache st)
    = None ->
  request ext (work_call cfg req) = Resolved res ->
  truthy res && truthy (prop res "work") = true ->
  cache (serve (node_api cfg ext req) st).2 =
    Store (workCache st ++ [Entry (prop (req_body req) "hash") (prop res "work")]).
Proof.
  intros Ha Ho Hh Hfresh Hres Hwork.
  destruct (node_api_work_miss cfg ext req st VNull Ha Ho Hh) as [_ Hrest];
    [unfold getCache_store, getCache_memory; rewrite Hfresh; reflexivity
    |reflexivity|].
  cbv zeta in Hrest. rewrite Hres, Hwork in Hrest. apply Hrest.
Qed.

Lemma getCache_store_pushed st h w :
  strict_eq h h = true ->
  find (fun e => strict_eq (hash e) h) (workCache st) = None ->
  getCache_store (Store (workCache st ++ [Entry h w])) h = w.
Proof.
  intros Hh Hfresh. unfold getCache_store, getCache_memory. cbn [workCache].
  rewrite find_app_none by exact Hfresh. cbn. rewrite Hh. reflexivity.
Qed.

(** X12. The work for a hash is fetched once. A work request for a hash
    that is a primitive value and not yet in the array, answered by the
    work node or the delegate with a work value [w], leaves that value in
    the cache (its own response is the error that [putCache] throws
    after the push); the same request is from then on served [{work: w}]
    from the cache and makes no outbound call. *)
Theorem work_fetched_once req st res w :
  prop (req_body req) "action" = VStr "work_generate" ->
  valid_override req = false ->
  truthy (prop (req_body req) "hash") = true ->
  strict_eq (prop (req_body req) "hash") (prop (req_body req) "hash") = true ->
  find (fun e => strict_eq (hash e) (prop (req_body req) "hash")) (workCache st)
    = None ->
  request ext (work_call cfg req) = Resolved res ->
  truthy res = true ->
  prop res "work" = VStr w ->
  w <> "" ->
  let after := cache (serve (node_api cfg ext req) st).2 in
  forall n,
    serve_repeatedly (node_api cfg ext req) n after =
      repeat
        (Process after [Response 200 (VObj [("work", VStr w)])]
           [GetCache (prop (req_body req) "hash")]) n.
Proof.
  intros Ha Ho Hh Hprim Hfresh Hres Htruthy Hw Hne. cbv zeta.
  assert (Hwork : truthy res && truthy (prop res "work") = true).
  { rewrite Htruthy, Hw. cbn. apply negb_true_iff, String.eqb_neq, Hne. }
  rewrite (node_api_work_stored req st res Ha Ho Hh Hfresh Hres Hwork), Hw.
  pose proof (getCache_store_pushed st _ (VStr w) Hprim Hfresh) as Hread.
  intros n. induction n as [|n IH]; [reflexivity|].
  cbn [serve_repeatedly repeat].
  rewrite (cached_work_hit cfg ext req _ w Ha Ho Hh Hread Hne).
  cbn [snd cache]. f_equal. exact IH.
Qed.

(** X13. Work values and the list of the online representatives share one
    key space. A work request whose hash is the text
    [online-representatives] stores its work value under the key of the
    representatives: a request for the online representatives that
    follows is answered from that entry, with the work value parsed as
    JSON, or not at all when it does not parse, and no node is asked. *)
Theorem work_entry_served_as_representatives wreq rreq st res w :
  prop (req_body wreq) "action" = VStr "work_generate" ->
  prop (req_body wreq) "hash" = repCacheKey ->
  valid_override wreq = false ->
  find (fun e => strict_eq (hash e) repCacheKey) (workCache st) = None ->
  request ext (work_call cfg wreq) = Resolved res ->
  truthy res = true ->
  prop res "work" = VStr w ->
  w <> "" ->
  prop (req_body rreq) "action" = VStr "representatives_online" ->
  valid_override rreq = false ->
  let after := cache (serve (node_api cfg ext wreq) st).2 in
  serve (node_api cfg ext rreq) after =
    match JSON_parse ext (VStr w) with
    | Resolved parsed =>
        (Return, Process after [Response 200 parsed] [GetCache repCacheKey])
    | Rejected err => (Throw err, Process after [] [GetCache repCacheKey])
    end.
Proof.
  intros Ha Hhash Ho Hfresh Hres Htruthy Hw Hne Ha' Ho'. cbv zeta.
  assert (Hwork : truthy res && truthy (prop res "work") = true).
  { rewrite Htruthy, Hw. cbn. apply negb_true_iff, String.eqb_neq, Hne. }
  rewrite (node_api_work_stored wreq st res Ha Ho) by
    (try assumption; rewrite Hhash; try reflexivity; exact Hfresh).
  rewrite Hhash, Hw.
  apply (node_api_representatives_hit cfg ext rreq _ (VStr w) Ha' Ho').
  - apply getCache_store_pushed; [reflexivity | exact Hfresh].
  - rewrite truthy_nonempty. apply negb_true_iff, String.eqb_neq, Hne.
Qed.

End Reuse.

(** ** What every run of the router does *)

Section Outcome.
Context (cfg : config) (ext : externals).
Implicit Types (req : incoming) (st : store) (p : process).

Lemma guard_check_allowed action :
  guard tt (fun _ _ => to_string (Number_toString ext) action = None)
    (check_allowed ext action).
Proof.
  intros p. unfold check_allowed.
  destruct (negb (truthy action) || not_listed action); cbn [when].
  2: { do 2 eexists. split; [reflexivity|]. repeat split. }
  destruct (to_string (Number_toString ext) action) eqn:Hs;
    do 2 eexists; (split; [reflexivity|]); cbn; repeat split.
  eexists. reflexivity.
Qed.

Lemma requests_logged_getCache p h :
  requests (log (logged p (GetCache h))) = requests (log p).
Proof. cbn. rewrite requests_app. cbn. apply app_nil_r. Qed.

Lemma guard_cache_work_requests action hash nodeOverride :
  guard (strict_eq action (VStr "work_generate") && negb nodeOverride)
    (fun _ _ => False)
    (cache_work_requests action hash nodeOverride).
Proof.
  intros p. unfold cache_work_requests.
  destruct (strict_eq action (VStr "work_generate") && negb nodeOverride).
  2: { do 2 eexists. split; [reflexivity|]. repeat split. }
  destruct (truthy hash); cbn [negb when].
  2: { do 2 eexists. split; [reflexivity|]. cbn. repeat split.
       eexists. reflexivity. }
  unfold mbind at 1, M_bind at 1. cbn [mret M_ret].
  unfold mbind at 1, M_bind at 1. rewrite getCache_run.
  pose proof (requests_logged_getCache p hash) as Hq.
  destruct (truthy (getCache_store (cache p) hash)
            && truthy (prop (getCache_store (cache p) hash) "length"));
    do 2 eexists; (split; [reflexivity|]); cbn [cache log sent responded logged];
    (split; [reflexivity|]); (split; [exact Hq|]).
  - eexists. reflexivity.
  - split; reflexivity.
Qed.

Lemma guard_cache_online_representatives action nodeOverride :
  guard (strict_eq action (VStr "representatives_online") && negb nodeOverride)
    (fun st err => JSON_parse ext (getCache_store st repCacheKey) = Rejected err)
    (cache_online_representatives ext action nodeOverride).
Proof.
  intros p. unfold cache_online_representatives.
  destruct (strict_eq action (VStr "representatives_online") && negb nodeOverride).
  2: { do 2 eexists. split; [reflexivity|]. repeat split. }
  unfold mbind at 1, M_bind at 1. rewrite getCache_run.
  pose proof (requests_logged_getCache p repCacheKey) as Hq.
  destruct (truthy (getCache_store (cache p) repCacheKey)
            && truthy (prop (getCache_store (cache p) repCacheKey) "length"));
    cbn [when].
  - unfold mbind, M_bind.
    destruct (JSON_parse ext (getCache_store (cache p) repCacheKey))
      as [parsed|err] eqn:Hp;
      do 2 eexists; (split; [reflexivity|]);
      cbn [cache log sent responded logged];
      (split; [reflexivity|]); (split; [exact Hq|]).
    + eexists. reflexivity.
    + split; reflexivity.
  - do 2 eexists. split; [reflexivity|]. split; [reflexivity|].
    split; [exact Hq|]. split; reflexivity.
Qed.

Lemma use_dpow_effect hash p :
  exists p' r,
    use_dpow cfg ext hash p = (Normal tt, p') /\
    sent p' = sent p ++ [r] /\
    requests (log p') = requests (log p) ++ [dpow_options cfg hash].
Proof.
  rewrite use_dpow_run. cbv zeta.
  destruct (request ext (dpow_options cfg hash)) as [res|err].
  - destruct (truthy res && truthy (prop res "work"));
      do 2 eexists; (split; [reflexivity|]); cbn [sent log responded logged stored];
      (split; [reflexivity|]); rewrite ?requests_app; cbn; rewrite ?app_nil_r;
      reflexivity.
  - do 2 eexists. split; [reflexivity|]. cbn [sent log responded logged].
    split; [reflexivity|]. rewrite requests_app. reflexivity.
Qed.

Lemma send_to_node_effect req nodeUrl workRequest representativeRequest nodeOverride p :
  exists p' r,
    send_to_node ext req nodeUrl workRequest representativeRequest nodeOverride p
      = (Normal tt, p') /\
    sent p' = sent p ++ [r] /\
    requests (log p') = requests (log p) ++ [Options "post" nodeUrl (req_body req)].
Proof.
  rewrite send_to_node_run. cbv zeta.
  destruct (request ext _) as [res|err].
  - destruct (cache_write_back_run ext (prop (req_body req) "hash") workRequest
                representativeRequest nodeOverride res
                (logged p (Request (Options "post" nodeUrl (req_body req)))))
      as (c & p2 & -> & _ & Hsent & calls & Hlog & Hcalls).
    destruct (timestamps_calls_quiet req res) as [Hquiet _].
    cbn [fst snd].
    destruct c as [[]| |err]; do 2 eexists; (split; [reflexivity|]);
      cbn [sent log responded]; rewrite Hsent; (split; [reflexivity|]);
      rewrite Hlog; cbn [log logged];
      rewrite !requests_app, Hcalls, ?Hquiet, !app_nil_r; reflexivity.
  - do 2 eexists. split; [reflexivity|]. cbn [sent log responded logged].
    split; [reflexivity|]. rewrite requests_app. reflexivity.
Qed.

(** The handler as a whole: what a run that starts in [p] has sent and
    called when it ends, and why it threw if it did. *)
Lemma node_api_outcome req p :
  exists c p',
    node_api cfg ext req p = (c, p') /\
    match c with
    | Throw err =>
        uncaught ext req (cache p) err /\
        sent p' = sent p /\
        requests (log p') = requests (log p)
    | _ =>
        (exists r, sent p' = sent p ++ [r]) /\
        (requests (log p') = requests (log p) \/
         requests (log p') = requests (log p) ++ [destination cfg req])
    end.
Proof.
  unfold node_api. cbv zeta.
  destruct (guard_check_allowed (prop (req_body req) "action") p)
    as (c0 & p1 & E0 & C0 & Q0 & S0).
  unfold mbind at 1, M_bind at 1. rewrite E0.
  destruct c0 as [[]| |err].
  2: { do 2 eexists. split; [reflexivity|]. split; [exact S0 | left; exact Q0]. }
  2: { do 2 eexists. split; [reflexivity|]. destruct S0 as [S0 S0'].
       split; [left; exact S0|]. split; [exact S0' | exact Q0]. }
  destruct S0 as [_ S0].
  destruct (guard_cache_work_requests (prop (req_body req) "action")
              (prop (req_body req) "hash") (valid_override req) p1)
    as (c1 & p2 & E1 & C1 & Q1 & S1).
  unfold mbind at 1, M_bind at 1. rewrite E1.
  rewrite C0 in C1. rewrite Q0 in Q1.
  destruct c1 as [workRequest| |err].
  2: { do 2 eexists. split; [reflexivity|]. rewrite <- S0.
       split; [exact S1 | left; exact Q1]. }
  2: { destruct S1 as [[] _]. }
  destruct S1 as [-> S1]. rewrite S0 in S1.
  destruct (guard_cache_online_representatives (prop (req_body req) "action")
              (valid_override req) p2)
    as (c2 & p3 & E2 & C2 & Q2 & S2).
  unfold mbind at 1, M_bind at 1. rewrite E2.
  rewrite C1 in S2. rewrite C1 in C2. rewrite Q1 in Q2.
  destruct c2 as [representativeRequest| |err].
  2: { do 2 eexists. split; [reflexivity|]. rewrite <- S1.
       split; [exact S2 | left; exact Q2]. }
  2: { do 2 eexists. split; [reflexivity|]. destruct S2 as [S2 S2'].
       split; [right; exact S2|]. split; [congruence | exact Q2]. }
  destruct S2 as [-> S2]. rewrite S1 in S2.
  unfold destination, work_call. cbv zeta.
  destruct (strict_eq (prop (req_body req) "action") (VStr "work_generate")) eqn:Hw;
    destruct (valid_override req) eqn:Ho; cbn [andb negb orb when].
  - (* work_generate, overridden *)
    destruct (strict_eq _ (VStr "representatives_online")); cbn [andb negb orb when];
    unfold mbind, M_bind; cbn [mret M_ret];
    match goal with
    | |- context [send_to_node ext req ?u ?w ?r ?o p3] =>
        destruct (send_to_node_effect req u w r o p3) as (p4 & resp & -> & Hs & Hq)
    end;
    do 2 eexists; (split; [reflexivity|]);
    (split; [exists resp; congruence | right]);
    rewrite Hq, Q2;
    unfold valid_override in Ho; destruct (req_query_node req); [|discriminate| |discriminate];
    reflexivity.
  - (* work_generate *)
    destruct (useDPoW cfg); cbn [when].
    + destruct (use_dpow_effect (prop (req_body req) "hash") p3)
        as (p4 & resp & E & Hs & Hq).
      unfold mbind, M_bind. rewrite E.
      do 2 eexists. split; [reflexivity|].
      split; [exists resp; congruence | right].
      rewrite Hq, Q2. destruct (req_query_node req); reflexivity.
    + unfold mbind, M_bind; cbn [mret M_ret].
      match goal with
      | |- context [send_to_node ext req ?u ?w ?r ?o p3] =>
          destruct (send_to_node_effect req u w r o p3) as (p4 & resp & -> & Hs & Hq)
      end.
      do 2 eexists. split; [reflexivity|].
      split; [exists resp; congruence | right].
      rewrite Hq, Q2. destruct (req_query_node req); reflexivity.
  - (* another action, overridden *)
    destruct (strict_eq _ (VStr "representatives_online")); cbn [andb negb orb when];
    unfold mbind, M_bind; cbn [mret M_ret];
    match goal with
    | |- context [send_to_node ext req ?u ?w ?r ?o p3] =>
        destruct (send_to_node_effect req u w r o p3) as (p4 & resp & -> & Hs & Hq)
    end;
    do 2 eexists; (split; [reflexivity|]);
    (split; [exists resp; congruence | right]);
    rewrite Hq, Q2;
    unfold valid_override in Ho; destruct (req_query_node req); [|discriminate| |discriminate];
    reflexivity.
  - (* another action *)
    destruct (strict_eq _ (VStr "representatives_online")); cbn [andb negb orb when];
    unfold mbind, M_bind; cbn [mret M_ret];
    match goal with
    | |- context [send_to_node ext req ?u ?w ?r ?o p3] =>
        destruct (send_to_node_effect req u w r o p3) as (p4 & resp & -> & Hs & Hq)
    end;
    do 2 eexists; (split; [reflexivity|]);
    (split; [exists resp; congruence | right]);
    rewrite Hq, Q2; destruct (req_query_node req); reflexivity.
Qed.

(** X14. Every run of the [/api/node-api] handler that does not end in an
    uncaught error writes exactly one response, and a run that ends in
    one writes none: no request is answered twice, and a request is left
    unanswered only when the handler throws. *)
Theorem node_api_one_response req st :
  let run := serve (node_api cfg ext req) st in
  match run.1 with
  | Throw _ => sent (run.2) = []
  | _ => exists r, sent (run.2) = [r]
  end.
Proof.
  cbv zeta. unfold serve.
  destruct (node_api_outcome req (Process st [] [])) as (c & p' & -> & H).
  destruct c; cbn [fst snd]; tauto.
Qed.

(** X15. A request makes at most one outbound call, and the call it makes is
    the one to its destination: the override when it carries a valid
    one, else the delegate, the work node or the Nano node as its action
    tells. No other host is ever called. *)
Theorem node_api_routing req st :
  let p := (serve (node_api cfg ext req) st).2 in
  requests (log p) = [] \/ requests (log p) = [destination cfg req].
Proof.
  cbv zeta. unfold serve.
  destruct (node_api_outcome req (Process st [] [])) as (c & p' & -> & H).
  destruct c; cbn [fst snd]; tauto.
Qed.

(** X16. The handler throws only where the source has no [catch]: when the
    action has no string conversion, or when the cached representatives
    do not parse. A failure of the node, of the delegate, of the
    timestamp enrichment or of [putCache] is never thrown. A run that
    throws has made no outbound call. *)
Theorem node_api_throws_only req st err :
  let run := serve (node_api cfg ext req) st in
  run.1 = Throw err ->
  uncaught ext req st err /\ requests (log (run.2)) = [].
Proof.
  cbv zeta. unfold serve.
  destruct (node_api_outcome req (Process st [] [])) as (c & p' & -> & H).
  cbn [fst snd]. intros ->. tauto.
Qed.

End Outcome.

(** ** What the handlers keep of the cache *)

Section Kept.
Context (cfg : config) (ext : externals) (I : store -> Prop).
Hypothesis I_putCache :
  forall st h w time, I st -> I (putCache_store st h w time).2.

Lemma kept_putCache h w time : keeps I (putCache h w time).
Proof.
  unfold putCache. apply keeps_bind; [apply keeps_emit | intros _].
  intros p Hp. apply I_putCache, Hp.
Qed.

Lemma kept_node_api req : keeps I (node_api cfg ext req).
Proof.
  unfold node_api, check_allowed, cache_work_requests, cache_online_representatives,
    use_dpow, send_to_node, cache_write_back, add_timestamps, request_promise,
    timestamps_mapAccountHistory, timestamps_mapBlocksInfo, timestamps_mapPending.
  cbv zeta.
  repeat first [keeps_step | apply kept_putCache].
Qed.

End Kept.

Lemma putCache_store_extends c0 st h w time :
  (exists added, workCache st = c0 ++ added) ->
  exists added, workCache (putCache_store st h w time).2 = c0 ++ added.
Proof.
  intros [added Hst]. unfold putCache_store, putCache_memory.
  destruct (time_given time); [exists added; exact Hst|].
  cbn. exists (added ++ [Entry h w]). rewrite Hst, app_assoc. reflexivity.
Qed.

(** ** The recommended representatives *)

Section Recommended.
Context (ext : externals).
Implicit Types (st : store) (p : process).

Lemma getRecommendedReps_run p :
  getRecommendedReps ext p =
    let directory :=
      Options "get" (VStr "https://mynano.ninja/api/accounts/verified") VUndefined in
    let p1 := logged p (Request directory) in
    match request ext directory with
    | Resolved res =>
        (Normal res,
         logged p1 (PutCache (VStr "recommended-reps") (JSON_stringify ext res)
                      (Some 2700)))
    | Rejected err => (Throw err, p1)
    end.
Proof.
  unfold getRecommendedReps. unfold mbind at 1, M_bind at 1. rewrite request_run.
  cbv zeta. destruct (request ext _) as [res|err]; [|reflexivity].
  unfold mbind, M_bind. rewrite putCache_run_time by discriminate. reflexivity.
Qed.

Lemma recommended_representatives_refetch st :
  truthy (getCache_store st (VStr "recommended-reps")) = false ->
  let directory :=
    Options "get" (VStr "https://mynano.ninja/api/accounts/verified") VUndefined in
  let p := (serve (recommended_representatives ext) st).2 in
  sent p = [] /\ requests (log p) = [directory] /\ cache p = st.
Proof.
  intros Hm. cbv zeta. unfold serve, recommended_representatives.
  erewrite bind_normal by apply getCache_run. cbn [cache].
  rewrite Hm. unfold mbind, M_bind. rewrite getRecommendedReps_run. cbv zeta.
  destruct (request ext _) as [res|err]; repeat split.
Qed.

(** X18. [GET /api/recommended-representatives] never answers while no
    entry is stored under its key: every request, however often
    repeated, fetches the directory again, stores nothing and writes no
    response. *)
Theorem recommended_representatives_never_answered st n :
  truthy (getCache_memory (workCache st) (VStr "recommended-reps")) = false ->
  Forall
    (fun p =>
       sent p = [] /\
       requests (log p) =
         [Options "get" (VStr "https://mynano.ninja/api/accounts/verified") VUndefined] /\
       workCache (cache p) = workCache st)
    (serve_repeatedly (recommended_representatives ext) n st).
Proof.
  intros Hm. induction n as [|n IH]; [constructor|].
  cbn [serve_repeatedly].
  destruct (recommended_representatives_refetch st Hm) as (Hsent & Hreq & Hcache).
  cbv zeta in Hsent, Hreq, Hcache.
  constructor.
  - split; [exact Hsent|]. split; [exact Hreq | rewrite Hcache; reflexivity].
  - rewrite Hcache. exact IH.
Qed.

End Recommended.

(** X17. No run of a handler removes or changes an entry of [workCache]:
    a run of the [/api/node-api] handler leaves the array it found,
    extended at its end by what it pushed; a run of
    [GET /api/recommended-representatives] or of [getRecommendedReps]
    leaves the array as it is. *)
Theorem workCache_only_grows cfg ext req st :
  (exists added,
     workCache (cache (serve (node_api cfg ext req) st).2) = workCache st ++ added) /\
  cache (serve (recommended_representatives ext) st).2 = st /\
  cache (getRecommendedReps ext (Process st [] [])).2 = st.
Proof.
  split; [|split].
  - apply (kept_node_api cfg ext
             (fun st' => exists added, workCache st' = workCache st ++ added)
             (putCache_store_extends (workCache st)) req (Process st [] [])).
    exists []. symmetry. apply app_nil_r.
  - unfold serve, recommended_representatives.
    erewrite bind_normal by apply getCache_run. cbn [cache].
    destruct (truthy (getCache_store st (VStr "recommended-reps"))).
    + unfold mbind, M_bind. destruct (JSON_parse ext _); reflexivity.
    + unfold mbind, M_bind. rewrite getRecommendedReps_run. cbv zeta.
      destruct (request ext _); reflexivity.
  - rewrite getRecommendedReps_run. cbv zeta.
    destruct (request ext _); reflexivity.
Qed.

(** * Concrete runs *)

(** ** Where the specification as written fails *)

(** C1. An overridden [account_history] request: the stub node answers
    [{work: "1234"}], the handler calls [mapAccountHistory] on it and
    sends the transformed value, not the answer of the node. *)
Lemma overridden_account_history_is_enriched :
  let req :=
    Incoming (VObj [("action", VStr "account_history"); ("account", VStr "xrb_1")])
      (Some "http://other.example") in
  let upstream := Options "post" (VStr "http://other.example") (req_body req) in
  let p := (serve (node_api memory_config stub_externals req) empty_store).2 in
  valid_override req = true /\
  request stub_externals upstream = Resolved stub_response /\
  log p = [Request upstream; MapAccountHistory stub_response] /\
  sent p = [Response 200 (tagged stub_response)] /\
  sent p <> [Response 200 stub_response].
Proof. cbv zeta. repeat split. discriminate. Qed.

(** C3. Two writes of the same hash into the empty in-memory cache: both
    entries are stored, and the read returns the first value, not the
    second. *)
Lemma second_write_is_not_read_back :
  let c := (putCache_memory
              (putCache_memory [] (VStr "ABCD") (VStr "1111") None).2
              (VStr "ABCD") (VStr "2222") None).2 in
  c = [Entry (VStr "ABCD") (VStr "1111"); Entry (VStr "ABCD") (VStr "2222")] /\
  getCache_memory c (VStr "ABCD") = VStr "1111" /\
  getCache_memory c (VStr "ABCD") <> VStr "2222".
Proof. cbv zeta. repeat split. discriminate. Qed.

(** C7. A node that answers the work request for ABCD with the number
    1234: the value is cached for the hash; the same request then finds
    it, but a number has no [length], so it is not served: the request
    goes to the work node again. *)
Lemma cached_number_is_not_served :
  let ext := answering (VObj [("work", VNum 1234)]) in
  let st := cache (serve (node_api memory_config ext work_request) empty_store).2 in
  let p := (serve (node_api memory_config ext work_request) st).2 in
  workCache st = [Entry (VStr "ABCD") (VNum 1234)] /\
  getCache_store st (VStr "ABCD") = VNum 1234 /\
  requests (log p) =
    [Options "post" (VStr "http://[::1]:7002") (req_body work_request)] /\
  sent p <> [Response 200 (VObj [("work", VNum 1234)])].
Proof. cbv zeta. repeat split. discriminate. Qed.

(** C9. A TTL argument of zero is falsy: the entry is stored. *)
Lemma zero_time_is_stored :
  (putCache_memory [] (VStr "ABCD") (VStr "1234") (Some 0)).2
    = [Entry (VStr "ABCD") (VStr "1234")] /\
  (putCache_memory [] (VStr "ABCD") (VStr "1234") (Some 0)).2 <> [].
Proof. split; [reflexivity | discriminate]. Qed.

(** ** Runs of the stub deployment *)

(** With [USE_REDIS] set the module does not load. *)
Example redis_deployment_does_not_load :
  cache_setup redis_config = Rejected "ReferenceError: redisCacheUrl is not defined".
Proof. reflexivity. Qed.

(** The first work request for ABCD is answered with the error of
    [putCache], although the node has answered and the entry is stored;
    the same request is then answered from the cache. *)
Example work_request_end_to_end :
  let p1 := (serve (node_api memory_config stub_externals work_request) empty_store).2 in
  let p2 := (serve (node_api memory_config stub_externals work_request) (cache p1)).2 in
  sent p1 = [Response 500 (VStr "ReferenceError: memoryCacheLength is not defined")] /\
  length (requests (log p1)) = 1%nat /\
  workCache (cache p1) = [Entry (VStr "ABCD") (VStr "1234")] /\
  sent p2 = [Response 200 (VObj [("work", VStr "1234")])] /\
  requests (log p2) = [].
Proof. cbv zeta. repeat split. Qed.

(** An action outside the allowlist is rejected by name, with no call. *)
Example delete_account_rejected :
  let req := Incoming (VObj [("action", VStr "delete_account")]) None in
  let p := (serve (node_api memory_config stub_externals req) empty_store).2 in
  sent p = [Response 500 (VObj [("error", VStr "Action delete_account not allowed")])] /\
  log p = [].
Proof. cbv zeta. repeat split. Qed.

(** The answer to [account_history] passes through the enricher. *)
Example account_history_enriched :
  let req := Incoming (VObj [("action", VStr "account_history")]) None in
  let p := (serve (node_api memory_config stub_externals req) empty_store).2 in
  sent p = [Response 200 (tagged stub_response)].
Proof. reflexivity. Qed.

(** After a work request the in-memory cache holds truthy work values
    only. *)
Example stub_deployment_truthy_works :
  truthy_works
    (cache (serve (node_api memory_config stub_externals work_request) empty_store).2).
Proof.
  apply (reachable_truthy_works memory_config).
  apply reachable_node_api, reachable_start. reflexivity.
Qed.

(** ** Instances of the theorems *)

(** C1: an overridden [block_count] request on the stub deployment. *)
Lemma override_bypasses_cache_witness :
  let req := Incoming (VObj [("action", VStr "block_count")]) (Some "http://other.example") in
  let upstream := Options "post" (VStr "http://other.example") (req_body req) in
  let p := (serve (node_api memory_config stub_externals req) empty_store).2 in
  cache p = empty_store /\
  Forall (fun e => is_cache_call e = false) (log p) /\
  requests (log p) = [upstream] /\
  sent p = [Response 200 stub_response].
Proof.
  cbv zeta.
  destruct (override_bypasses_cache_not_enrichment memory_config stub_externals
              (Incoming (VObj [("action", VStr "block_count")])
                 (Some "http://other.example"))
              empty_store "http://other.example" eq_refl eq_refl)
    as (Hcache & Hquiet & Hlisted).
  destruct (Hlisted eq_refl) as [Hreq Hsent].
  split; [exact Hcache|]. split; [exact Hquiet|]. split; [exact Hreq | exact Hsent].
Defined.

(** C2: the first request of a server. *)
Lemma recommended_representatives_miss_witness :
  let p := (serve (recommended_representatives stub_externals) empty_store).2 in
  sent p = [] /\
  requests (log p) =
    [Options "get" (VStr "https://mynano.ninja/api/accounts/verified") VUndefined] /\
  cache p = empty_store.
Proof.
  cbv zeta.
  destruct (recommended_representatives_miss stub_externals
              empty_store VNull eq_refl eq_refl)
    as (Hsent & Hreq & Hcache).
  split; [exact Hsent|]. split; [exact Hreq|].
  exact (Hcache stub_response eq_refl).
Defined.

(** C3: a second write for ABCD, and two writes for the key 7. *)
Lemma write_then_read_witness :
  getCache_memory
    (putCache_memory [Entry (VStr "ABCD") (VStr "1111")]
       (VStr "ABCD") (VStr "2222") None).2
    (VStr "ABCD") = VStr "1111" /\
  getCache_memory
    (putCache_memory (putCache_memory [] (VNum 7) (VStr "1111") None).2
       (VNum 7) (VStr "2222") None).2
    (VNum 7) = VStr "1111".
Proof.
  destruct write_then_read as (Hmemory & Htwice).
  split.
  - exact (proj2 (Hmemory [Entry (VStr "ABCD") (VStr "1111")]
                    (VStr "ABCD") (VStr "2222")
                    (Entry (VStr "ABCD") (VStr "1111")) eq_refl)).
  - apply Htwice. reflexivity.
Defined.


(** C7: the stub deployment after one work request for the hash ABCD,
    the same request then served, once and three times in a row. *)
Lemma cached_work_served_witness :
  let st := cache (serve (node_api memory_config stub_externals work_request)
                     empty_store).2 in
  let answer := Response 200 (VObj [("work", VStr "1234")]) in
  workCache st = [Entry (VStr "ABCD") (VStr "1234")] /\
  serve (node_api memory_config stub_externals work_request) st =
    (Return, Process st [answer] [GetCache (VStr "ABCD")]) /\
  serve_repeatedly (node_api memory_config stub_externals work_request) 3 st =
    repeat (Process st [answer] [GetCache (VStr "ABCD")]) 3.
Proof.
  cbv zeta.
  assert (Hw : "1234" ≠ "") by discriminate.
  assert (Hst : reachable memory_config
                  (cache (serve (node_api memory_config stub_externals work_request)
                            empty_store).2))
    by (apply reachable_node_api, reachable_start; reflexivity).
  destruct (cached_work_served_without_upstream memory_config stub_externals
              work_request
              (cache (serve (node_api memory_config stub_externals work_request)
                        empty_store).2)
              eq_refl eq_refl eq_refl)
    as (_ & Hrepeated & Hreachable).
  split; [reflexivity|]. split.
  - exact (Hreachable "1234" Hst eq_refl).
  - exact (Hrepeated "1234" 3%nat Hw eq_refl).
Defined.

(** C8: the delegate enabled and unreachable. *)
Lemma dpow_delegation_witness :
  let delegate :=
    Options "post" (VStr "https://dpow.example/service")
      (VObj [("user", VStr "user"); ("api_key", VStr "key");
             ("hash", VStr "ABCD"); ("timeout", VNum 10)]) in
  let p := (serve (node_api dpow_config failing_externals work_request) empty_store).2 in
  requests (log p) = [delegate] /\
  sent p = [Response 500 (VStr "Error: connect ECONNREFUSED")] /\
  log p = [GetCache (VStr "ABCD"); Request delegate] /\
  cache p = empty_store.
Proof.
  cbv zeta.
  destruct (dpow_delegation dpow_config failing_externals work_request empty_store
              VNull eq_refl eq_refl eq_refl eq_refl eq_refl eq_refl)
    as [Hone Hfailure].
  split; [exact Hone|].
  exact (Hfailure "Error: connect ECONNREFUSED" eq_refl).
Defined.

(** C9: the two TTLs the source passes, 5 and 45 minutes. *)
Lemma putCache_memory_with_time_witness :
  putCache_memory [Entry (VStr "ABCD") (VStr "1234")]
    (VStr "online-representatives") (VStr "json") (Some (5 * 60))
    = (Resolved tt, [Entry (VStr "ABCD") (VStr "1234")]) /\
  putCache_store empty_store
    (VStr "recommended-reps") (VStr "json") (Some (45 * 60)) = (Resolved tt, empty_store).
Proof.
  split.
  - refine (proj1 (putCache_memory_with_time _ _ _ (5 * 60) _)). discriminate.
  - refine (proj2 (putCache_memory_with_time [] _ _ (45 * 60) _) empty_store).
    discriminate.
Defined.

(** C10: an array in which the hash ABCD and the key of the online
    representatives hold the empty string. *)
Lemma empty_cached_value_witness :
  let st := Store [Entry (VStr "ABCD") (VStr ""); Entry repCacheKey (VStr "")] in
  let ext := answering refusal in
  let p := (serve (node_api memory_config ext work_request) st).2 in
  let q := (serve (node_api memory_config ext representatives_request) st).2 in
  (head (log p) = Some (GetCache (VStr "ABCD")) /\
   requests (log p) = [Options "post" (VStr "http://[::1]:7002") (req_body work_request)] /\
   sent p = [Response 200 refusal]) /\
  (head (log q) = Some (GetCache repCacheKey) /\
   requests (log q) =
     [Options "post" (VStr "http://[::1]:7002") (req_body representatives_request)] /\
   sent q = [Response 200 refusal]).
Proof.
  cbv zeta. split.
  - exact (proj1 (proj2
      (empty_cached_value_is_a_miss memory_config (answering refusal) work_request
         (Store [Entry (VStr "ABCD") (VStr ""); Entry repCacheKey (VStr "")])
         eq_refl))
      eq_refl eq_refl eq_refl).
  - exact (proj2 (proj2
      (empty_cached_value_is_a_miss memory_config (answering refusal)
         representatives_request
         (Store [Entry (VStr "ABCD") (VStr ""); Entry repCacheKey (VStr "")])
         eq_refl))
      eq_refl eq_refl).
Defined.

(** ** Instances of the further properties *)

(** X2: a second hash written into an array that holds one entry. *)
Lemma putCache_then_getCache_witness :
  let c := [Entry (VStr "ABCD") (VStr "1234")] in
  let c' := (putCache_memory c (VStr "EF01") (VStr "5678") None).2 in
  getCache_memory c' (VStr "EF01") = VStr "5678" /\
  getCache_memory c' (VStr "ABCD") = getCache_memory c (VStr "ABCD").
Proof.
  cbv zeta.
  destruct (putCache_then_getCache [Entry (VStr "ABCD") (VStr "1234")]
              (VStr "EF01") (VStr "5678") eq_refl eq_refl)
    as [Hread Hframe].
  split; [exact Hread | exact (Hframe (VStr "ABCD") eq_refl)].
Defined.

(** X4: a work request without hash. *)
Lemma work_without_hash_rejected_witness :
  serve (node_api memory_config stub_externals
           (Incoming (VObj [("action", VStr "work_generate")]) None))
    empty_store =
  (Return,
   Process empty_store
     [Response 500 (error_object "Requires valid hash to perform work")] []).
Proof.
  exact (work_without_hash_rejected memory_config stub_externals
           (Incoming (VObj [("action", VStr "work_generate")]) None)
           empty_store eq_refl eq_refl eq_refl).
Defined.

(** X5: a [block_count] request on the stub deployment. *)
Lemma other_actions_go_to_the_node_witness :
  let req := Incoming (VObj [("action", VStr "block_count")]) None in
  let p := (serve (node_api memory_config stub_externals req) empty_store).2 in
  cache p = empty_store /\
  log p = [Request (Options "post" (VStr "http://[::1]:7002") (req_body req))] /\
  sent p = [Response 200 stub_response].
Proof.
  cbv zeta.
  exact (other_actions_go_to_the_node memory_config stub_externals
           (Incoming (VObj [("action", VStr "block_count")]) None)
           empty_store eq_refl eq_refl eq_refl eq_refl).
Defined.

(** X6: a [node] parameter of three characters. *)
Lemma short_override_ignored_witness :
  serve (node_api memory_config stub_externals
           (Incoming (req_body work_request) (Some "abc"))) empty_store =
  serve (node_api memory_config stub_externals
           (Incoming (req_body work_request) None)) empty_store.
Proof.
  apply short_override_ignored. cbn. lia.
Defined.

(** X7: an array that holds a text under the key of the online
    representatives. *)
Lemma representatives_served_from_cache_witness :
  let st := Store [Entry repCacheKey (VStr "json")] in
  let run := serve (node_api memory_config (answering representatives_response)
                      representatives_request) st in
  log (run.2) = [GetCache repCacheKey] /\
  cache (run.2) = st /\
  run.1 = Return /\
  sent (run.2) = [Response 200 representatives_response].
Proof.
  cbv zeta.
  exact (representatives_served_from_cache memory_config
           (answering representatives_response) representatives_request
           (Store [Entry repCacheKey (VStr "json")])
           (VStr "json") eq_refl eq_refl eq_refl eq_refl).
Defined.

(** X8: an action that is the array [["work_generate"]]. *)
Lemma only_listed_strings_pass_witness :
  let req := Incoming (VObj [("action", VArr [VStr "work_generate"])]) None in
  let p := (serve (node_api memory_config stub_externals req) empty_store).2 in
  log p = [] /\
  cache p = empty_store /\
  sent p = [Response 500 (error_object "Action work_generate not allowed")].
Proof.
  cbv zeta.
  destruct (only_listed_strings_pass memory_config stub_externals
              (Incoming (VObj [("action", VArr [VStr "work_generate"])]) None)
              empty_store)
    as (Hlog & Hcache & Hsent).
  - intros a _. discriminate.
  - split; [exact Hlog|]. split; [exact Hcache|].
    exact (Hsent "work_generate" eq_refl).
Defined.

(** X9: the first request for the online representatives. *)
Lemma representatives_written_back_witness :
  let node :=
    Options "post" (VStr "http://[::1]:7002") (req_body representatives_request) in
  let p := (serve (node_api memory_config (answering representatives_response)
                     representatives_request) empty_store).2 in
  log p = [GetCache repCacheKey; Request node;
           PutCache repCacheKey (VStr "json") (Some 300)] /\
  sent p = [Response 200 representatives_response] /\
  cache p = empty_store.
Proof.
  cbv zeta.
  exact (representatives_written_back memory_config
           (answering representatives_response) representatives_request
           empty_store VNull representatives_response
           eq_refl eq_refl eq_refl eq_refl eq_refl eq_refl).
Defined.

(** X10: the request for the online representatives made three times. *)
Lemma representatives_never_cached_witness :
  Forall
    (fun p =>
       requests (log p) =
         [Options "post" (VStr "http://[::1]:7002") (req_body representatives_request)] /\
       cache p = empty_store)
    (serve_repeatedly
       (node_api memory_config (answering representatives_response)
          representatives_request) 3 empty_store).
Proof.
  exact (representatives_never_cached memory_config
           (answering representatives_response) representatives_request
           empty_store 3 eq_refl eq_refl eq_refl).
Defined.

(** X11: a node that refuses the hash. *)
Lemma answer_without_work_not_cached_witness :
  let p := (serve (node_api memory_config (answering refusal) work_request)
              empty_store).2 in
  sent p = [Response 200 refusal] /\
  cache p = empty_store /\
  log p = [GetCache (VStr "ABCD");
           Request (Options "post" (VStr "http://[::1]:7002") (req_body work_request))].
Proof.
  cbv zeta.
  exact (answer_without_work_not_cached memory_config (answering refusal)
           work_request empty_store VNull refusal
           eq_refl eq_refl eq_refl eq_refl eq_refl eq_refl eq_refl).
Defined.

(** X12: the stub deployment: the request for ABCD made twice more. *)
Lemma work_fetched_once_witness :
  let after :=
    cache (serve (node_api memory_config stub_externals work_request) empty_store).2 in
  serve_repeatedly (node_api memory_config stub_externals work_request) 2 after =
    repeat
      (Process after [Response 200 (VObj [("work", VStr "1234")])]
         [GetCache (VStr "ABCD")]) 2.
Proof.
  cbv zeta.
  assert (Hw : "1234" <> "") by discriminate.
  exact (work_fetched_once memory_config stub_externals work_request
           empty_store stub_response "1234"
           eq_refl eq_refl eq_refl eq_refl eq_refl eq_refl eq_refl eq_refl Hw 2%nat).
Defined.

(** X13: a work request for the hash [online-representatives], then a
    request for the online representatives. *)
Lemma work_entry_served_as_representatives_witness :
  let wreq :=
    Incoming (VObj [("action", VStr "work_generate");
                    ("hash", VStr "online-representatives")]) None in
  let after :=
    cache (serve (node_api memory_config stub_externals wreq) empty_store).2 in
  serve (node_api memory_config stub_externals representatives_request) after =
    (Return, Process after [Response 200 (VStr "1234")] [GetCache repCacheKey]).
Proof.
  cbv zeta.
  assert (Hw : "1234" <> "") by discriminate.
  exact (work_entry_served_as_representatives memory_config stub_externals
           (Incoming (VObj [("action", VStr "work_generate");
                            ("hash", VStr "online-representatives")]) None)
           representatives_request empty_store stub_response "1234"
           eq_refl eq_refl eq_refl eq_refl eq_refl eq_refl eq_refl Hw
           eq_refl eq_refl).
Defined.

(** X16: an action without string conversion. *)
Lemma node_api_throws_only_witness :
  let req := Incoming (VObj [("action", VObj [("toString", VNum 1)])]) None in
  uncaught stub_externals req empty_store
    "TypeError: Cannot convert object to primitive value" /\
  requests (log (serve (node_api memory_config stub_externals req) empty_store).2) = [].
Proof.
  cbv zeta.
  exact (node_api_throws_only memory_config stub_externals
           (Incoming (VObj [("action", VObj [("toString", VNum 1)])]) None)
           empty_store "TypeError: Cannot convert object to primitive value" eq_refl).
Defined.

(** X18: two requests in a row. *)
Lemma recommended_representatives_never_answered_witness :
  Forall
    (fun p =>
       sent p = [] /\
       requests (log p) =
         [Options "get" (VStr "https://mynano.ninja/api/accounts/verified") VUndefined] /\
       workCache (cache p) = [])
    (serve_repeatedly (recommended_representatives stub_externals) 2 empty_store).
Proof.
  exact (recommended_representatives_never_answered stub_externals
           empty_store 2 eq_refl).
Defined.
